(** * CodeSync: route protection, role gating and meeting actions

    A shallow embedding of the logic owned by the CodeSync interview
    platform: the meeting dialog's start handler, the end-call control,
    the role hook and its consumers, the hydration-safe video player and
    the authentication middleware configuration.

    Hooks and SDK calls are external; each component is embedded as a
    function of the values its hooks return, and every call that leaves
    the component is recorded in a trace. *)

From Stdlib Require Import String Ascii List Bool Arith Lia.
Import ListNotations.
Open Scope string_scope.
Open Scope list_scope.

(** ** JavaScript values used by the components *)

Module Js.

(** [s.split(sep)] for a one-character separator: the segments between
    the occurrences of [sep], in order; never the empty array. *)
Fixpoint split (sep : ascii) (s : string) : list string :=
  match s with
  | EmptyString => [EmptyString]
  | String c rest =>
      if Ascii.eqb c sep then EmptyString :: split sep rest
      else match split sep rest with
           | seg :: segs => String c seg :: segs
           | [] => [String c EmptyString]
           end
  end.

(** [arr.pop()]: the last element, [undefined] on the empty array. *)
Fixpoint pop {A : Type} (arr : list A) : option A :=
  match arr with
  | [] => None
  | [x] => Some x
  | _ :: tl => pop tl
  end.

(** Truthiness of a [string | undefined]. *)
Definition truthy (v : option string) : bool :=
  match v with
  | Some (String _ _) => true
  | _ => false
  end.

(** Strict equality [a === b] on [string | undefined]. *)
Definition strict_eq (a b : option string) : bool :=
  match a, b with
  | Some x, Some y => String.eqb x y
  | None, None => true
  | _, _ => false
  end.

(** A template-literal hole [${v}] for a [string | undefined]. *)
Definition interpolate (v : option string) : string :=
  match v with
  | Some s => s
  | None => "undefined"
  end.

(** The value of a hook that is still resolving ([undefined]), resolved
    to nothing ([null]) or resolved to a value. *)
Inductive Lookup (A : Type) : Type :=
| Pending : Lookup A
| Absent : Lookup A
| Present : A -> Lookup A.
Arguments Pending {A}.
Arguments Absent {A}.
Arguments Present {A} _.

(** [!v] for such a value: [undefined] and [null] are falsy, an object
    is truthy. *)
Definition falsy {A : Type} (v : Lookup A) : bool :=
  match v with
  | Present _ => false
  | _ => true
  end.

(** [v?.field] *)
Definition opt_chain {A B : Type} (v : Lookup A) (field : A -> B) : option B :=
  match v with
  | Present a => Some (field a)
  | _ => None
  end.

(** No [sep] occurs in [s]. *)
Fixpoint free_of (sep : ascii) (s : string) : bool :=
  match s with
  | EmptyString => true
  | String c rest => negb (Ascii.eqb c sep) && free_of sep rest
  end.

End Js.

(** ** MeetingModal.tsx *)

Module MeetingModal.

(** What [handleStart] does to the outside: calls of the two helpers of
    [useMeetingActions] (the only places that navigate or reach the
    video client), the browser alert, the state setter and the
    [onClose] prop. *)
Inductive Effect : Type :=
| JoinMeeting (callId : string)
| CreateInstantMeeting
| Alert (message : string)
| SetMeetingUrl (value : string)
| OnClose.

Definition invalid_url_message : string := "Please enter a valid meeting URL.".

(** [meetingUrl.split("/").pop()] *)
Definition meetingId (meetingUrl : string) : option string :=
  Js.pop (Js.split "/" meetingUrl).

Definition handleStart (isJoinMeeting : bool) (meetingUrl : string) : list Effect :=
  (if isJoinMeeting then
     match meetingId meetingUrl with
     | Some id =>
         if Js.truthy (Some id) then [JoinMeeting id]
         else [Alert invalid_url_message]
     | None => [Alert invalid_url_message]
     end
   else [CreateInstantMeeting])
  ++ [SetMeetingUrl ""; OnClose].

(** The helper calls are the effects that navigate or call out. *)
Definition leaves_page (e : Effect) : bool :=
  match e with
  | JoinMeeting _ | CreateInstantMeeting => true
  | _ => false
  end.

Definition is_alert (e : Effect) : bool :=
  match e with
  | Alert _ => true
  | _ => false
  end.

Definition is_close (e : Effect) : bool :=
  match e with
  | OnClose => true
  | _ => false
  end.

(** The [meetingUrl] state after a run of effects. *)
Definition meetingUrl_after (effects : list Effect) (before : string) : string :=
  fold_left (fun url e => match e with SetMeetingUrl v => v | _ => url end)
            effects before.

End MeetingModal.

(** ** Calls that may fail, and their trace *)

Module Effects.

Definition Error : Type := string.

(** The calls of [endCall] that reach an external client. *)
Inductive Op : Type :=
| CallEndCall
| UpdateInterviewStatus (id : string) (status : string)
| RouterPush (href : string).

Inductive Outcome : Type :=
| Returns
| Throws (e : Error).

(** What is observable of a run: each external call with its outcome,
    and the console and toast output. *)
Inductive Event : Type :=
| Called (op : Op) (outcome : Outcome)
| ConsoleError (e : Error)
| ToastSuccess (message : string)
| ToastError (message : string).

Definition Trace : Type := list Event.

(** The environment decides which external call rejects. *)
Definition Oracle : Type := Op -> Outcome.

Inductive Result (A : Type) : Type :=
| Ok (a : A)
| Thrown (e : Error).
Arguments Ok {A} _.
Arguments Thrown {A} _.

(** An async function body: it extends the trace and settles. *)
Definition M (A : Type) : Type := Oracle -> Trace -> Trace * Result A.

Definition ret {A : Type} (a : A) : M A := fun _ t => (t, Ok a).

Definition bind {A B : Type} (m : M A) (k : A -> M B) : M B :=
  fun o t =>
    match m o t with
    | (t', Ok a) => k a o t'
    | (t', Thrown e) => (t', Thrown e)
    end.

(** [await op()] *)
Definition perform (op : Op) : M unit :=
  fun o t =>
    (t ++ [Called op (o op)],
     match o op with
     | Returns => Ok tt
     | Throws e => Thrown e
     end).

(** [console.error] and [toast.*]: output that returns normally. *)
Definition log (ev : Event) : M unit := fun _ t => (t ++ [ev], Ok tt).

(** [try { body } catch (error) { handler }] *)
Definition try_catch {A : Type} (body : M A) (handler : Error -> M A) : M A :=
  fun o t =>
    match body o t with
    | (t', Ok a) => (t', Ok a)
    | (t', Thrown e) => handler e o t'
    end.

Definition run {A : Type} (m : M A) (o : Oracle) : Trace * Result A := m o [].

(** The external state the three calls act on. A call that rejected
    is taken to have changed nothing. *)
Record World : Type := {
  callEnded : bool;
  interviewStatus : string -> string;
  route : string
}.

Definition apply_event (w : World) (ev : Event) : World :=
  match ev with
  | Called CallEndCall Returns =>
      {| callEnded := true; interviewStatus := interviewStatus w; route := route w |}
  | Called (UpdateInterviewStatus id status) Returns =>
      {| callEnded := callEnded w;
         interviewStatus := fun k => if String.eqb k id then status else interviewStatus w k;
         route := route w |}
  | Called (RouterPush href) Returns =>
      {| callEnded := callEnded w; interviewStatus := interviewStatus w; route := href |}
  | _ => w
  end.

Definition apply_trace (t : Trace) (w : World) : World := fold_left apply_event t w.

Definition is_update (ev : Event) : bool :=
  match ev with
  | Called (UpdateInterviewStatus _ _) _ => true
  | _ => false
  end.

Definition is_navigation (ev : Event) : bool :=
  match ev with
  | Called (RouterPush _) _ => true
  | _ => false
  end.

End Effects.

Declare Scope effects_scope.
Delimit Scope effects_scope with effects.
Notation "m1 ;; m2" := (Effects.bind m1 (fun _ => m2))
  (at level 61, right associativity) : effects_scope.

(** ** EndCallButton.tsx *)

Module EndCallButton.

Import Js Effects.

Record Participant : Type := { userId : string }.
Record UserResponse : Type := { id : string }.
Record CallState : Type := { createdBy : option UserResponse }.
Record Call : Type := { call_id : string; state : CallState }.
Record Interview : Type := { _id : string; status : string }.

(** [call?.id || ""] *)
Definition streamCallId (call : option Call) : string :=
  match call with
  | Some c => call_id c
  | None => ""
  end.

Definition success_message : string := "Meeting ended for everyone.".
Definition failure_message : string := "Failed to end the meeting. Please try again.".

(** The three awaited steps of the [try] block, in program order. *)
Definition steps (interview : Interview) : list Op :=
  [CallEndCall; UpdateInterviewStatus (_id interview) "completed"; RouterPush "/"].

Definition endCall (interview : Interview) : M unit :=
  (try_catch
     (perform CallEndCall ;;
      perform (UpdateInterviewStatus (_id interview) "completed") ;;
      perform (RouterPush "/") ;;
      log (ToastSuccess success_message))
     (fun error =>
        log (ConsoleError error) ;;
        log (ToastError failure_message)))%effects.

Inductive Element : Type :=
| Null
| EndMeetingButton (onClick : M unit).

(** [localParticipant?.userId === call.state.createdBy?.id] *)
Definition isMeetingOwner (localParticipant : option Participant) (c : Call) : bool :=
  strict_eq (option_map userId localParticipant)
            (option_map id (createdBy (state c))).

(** The component, as a function of what its hooks return: [useCall],
    [useLocalParticipant] and the data client's current answer to
    [getInterviewByStreamCallId]. *)
Definition EndCallButton
    (call : option Call) (localParticipant : option Participant)
    (getInterviewByStreamCallId : string -> Lookup Interview) : Element :=
  let interview := getInterviewByStreamCallId (streamCallId call) in
  match call, interview with
  | Some c, Present i =>
      if negb (isMeetingOwner localParticipant c) then Null
      else EndMeetingButton (endCall i)
  | _, _ => Null
  end.

Definition renders_button (e : Element) : bool :=
  match e with
  | EndMeetingButton _ => true
  | Null => false
  end.

(** The local participant is the recorded creator: both ids exist and
    are the same string. *)
Definition is_creator (localParticipant : option Participant) (c : Call) : Prop :=
  exists p u, localParticipant = Some p /\ createdBy (state c) = Some u
              /\ userId p = id u.

End EndCallButton.

(** ** hooks/useUserRole.ts and its consumers *)

Module UserRole.

Import Js.

Record ClerkUser : Type := { id : string }.
Record UserDoc : Type := { role : string }.

Record RoleState : Type := {
  isLoading : bool;
  isInterviewer : bool;
  isCandidate : bool
}.

(** [user?.id || ""] *)
Definition clerkId (user : Lookup ClerkUser) : string :=
  match user with
  | Present u => id u
  | _ => ""
  end.

(** The hook, as a function of [useUser]'s [user] and of the data
    client's current answer to [getUserByClerkId]. *)
Definition useUserRole
    (getUserByClerkId : string -> Lookup UserDoc) (user : Lookup ClerkUser) : RoleState :=
  let userData := getUserByClerkId (clerkId user) in
  {| isLoading := match userData with Pending => true | _ => false end;
     isInterviewer := strict_eq (opt_chain userData role) (Some "interviewer");
     isCandidate := strict_eq (opt_chain userData role) (Some "candidate") |}.

(** Exactly one of the three flags is set. *)
Definition tri_state (r : RoleState) : bool :=
  match isLoading r, isInterviewer r, isCandidate r with
  | true, false, false | false, true, false | false, false, true => true
  | _, _, _ => false
  end.

(** At most one of the three flags is set. *)
Definition at_most_one (r : RoleState) : bool :=
  match isLoading r, isInterviewer r, isCandidate r with
  | true, true, _ | true, _, true | _, true, true => false
  | _, _, _ => true
  end.

(** The record says [interviewer]. *)
Definition records_interviewer (userData : Lookup UserDoc) : bool :=
  match userData with
  | Present d => String.eqb (role d) "interviewer"
  | _ => false
  end.

End UserRole.

Module DashboardBtn.

Import UserRole.

Inductive Element : Type :=
| Null
| DashboardLink (href : string).

Definition DashboardBtn (r : RoleState) : Element :=
  if isCandidate r || isLoading r then Null else DashboardLink "/dashboard".

End DashboardBtn.

(** The schedule page as the route notes give it
    ([src/app/(root)/schedule/page.tsx]). *)
Module SchedulePage.

Import UserRole.

Inductive View : Type :=
| LoaderUI
| RouterPushHome
| InterviewScheduleUI.

Definition SchedulePage (r : RoleState) : View :=
  if isLoading r then LoaderUI
  else if negb (isInterviewer r) then RouterPushHome
  else InterviewScheduleUI.

End SchedulePage.

(** ** hooks/useIsClient.ts and components/VideoPlayer.tsx *)

Module Hydration.

Inductive Environment : Type :=
| Server
| Client.

(** [useState(false)] with [useEffect(() => set(true), [])]: the flag
    and whether the mount effect is still to run. *)
Record MountState : Type := {
  flag : bool;
  effectPending : bool
}.

Definition initial : MountState := {| flag := false; effectPending := true |}.

(** After a commit the client runs the pending mount effect, once; a
    server render runs no effect. *)
Definition run_effects (env : Environment) (st : MountState) : MountState :=
  match env with
  | Server => st
  | Client => if effectPending st then {| flag := true; effectPending := false |} else st
  end.

(** The hook state at render number [n] (0 is the first render). *)
Fixpoint at_render (env : Environment) (n : nat) : MountState :=
  match n with
  | O => initial
  | S k => run_effects env (at_render env k)
  end.

Definition useIsClient (st : MountState) : bool := flag st.

End Hydration.

Module VideoPlayer.

Import Js Hydration.

Record VideoPlayerProps : Type := {
  src : string;
  className : option string;
  ariaLabel : option string
}.

Inductive Element : Type :=
| PlaceholderDiv (className : string) (ariaLabel : string) (text : string)
| Video (src : string) (className : option string) (ariaLabel : option string).

Definition placeholder_classes : string :=
  " bg-gray-200 dark:bg-gray-800 animate-pulse flex items-center justify-center".

Definition VideoPlayer (props : VideoPlayerProps) (st : MountState) : Element :=
  let mounted := flag st in
  if negb mounted then
    PlaceholderDiv (interpolate (className props) ++ placeholder_classes)
                   "Loading video..." "Loading..."
  else Video (src props) (className props) (ariaLabel props).

Definition is_video (e : Element) : bool :=
  match e with
  | Video _ _ _ => true
  | PlaceholderDiv _ _ _ => false
  end.

(** What render number [n] of the player produces in [env]. *)
Definition markup (env : Environment) (props : VideoPlayerProps) (n : nat) : Element :=
  VideoPlayer props (at_render env n).

End VideoPlayer.

(** ** Regular expressions of the request filter *)

Module Regex.

(** The constructs the two patterns of the filter are written with. *)
Inductive Re : Type :=
| Lit (s : string)         (* these characters *)
| Seq (a b : Re)           (* a then b *)
| Alt (a b : Re)           (* a or b *)
| Opt (a : Re)             (* a, or nothing *)
| NotAhead (a : Re)        (* negative lookahead: a does not match here *)
| AnyStar                  (* any run of characters other than line terminators *)
| NoneOfStar (c : ascii).  (* any run of characters other than c *)

Definition line_terminator (c : ascii) : bool :=
  let n := nat_of_ascii c in ((n =? 10) || (n =? 13))%nat.

(** What is left of [s] after the literal [lit], if [s] starts with it. *)
Fixpoint strip (lit s : string) : option string :=
  match lit, s with
  | EmptyString, _ => Some s
  | String a lit', String b s' => if Ascii.eqb a b then strip lit' s' else None
  | String _ _, EmptyString => None
  end.

(** A run of allowed characters, of any length, followed by [k]. *)
Fixpoint star (allowed : ascii -> bool) (s : string) (k : string -> bool) : bool :=
  k s ||
  match s with
  | EmptyString => false
  | String c rest => allowed c && star allowed rest k
  end.

(** [run r s k]: some way of matching [r] at the start of [s] leaves a
    rest that [k] accepts. *)
Fixpoint run (r : Re) (s : string) (k : string -> bool) : bool :=
  match r with
  | Lit lit => match strip lit s with Some rest => k rest | None => false end
  | Seq a b => run a s (fun rest => run b rest k)
  | Alt a b => run a s k || run b s k
  | Opt a => run a s k || k s
  | NotAhead a => negb (run a s (fun _ => true)) && k s
  | AnyStar => star (fun c => negb (line_terminator c)) s k
  | NoneOfStar c0 => star (fun c => negb (Ascii.eqb c c0)) s k
  end.

(** The whole of [s] matches [r]. *)
Definition test (r : Re) (s : string) : bool :=
  run r s (fun rest => String.eqb rest "").

(** One of several alternatives. *)
Fixpoint any_of (rs : list Re) : Re :=
  match rs with
  | [] => NotAhead (Lit "")
  | [r] => r
  | r :: more => Alt r (any_of more)
  end.

End Regex.

(** ** middleware.ts *)

Module Middleware.

(** Route patterns are compiled by the auth library into
    case-insensitive regular expressions: a literal route matches the
    path itself, optionally followed by one of the delimiters [/], [#]
    and [?]; a route ending in the any-suffix group matches every path
    that starts with its stem. *)

Definition lower_ascii (c : ascii) : ascii :=
  let n := nat_of_ascii c in
  if ((65 <=? n) && (n <=? 90))%nat then ascii_of_nat (n + 32) else c.

Fixpoint lower (s : string) : string :=
  match s with
  | EmptyString => EmptyString
  | String c rest => String (lower_ascii c) (lower rest)
  end.

(** The stem of a route that ends in the any-suffix group. *)
Fixpoint wildcard_stem (route : string) : option string :=
  match route with
  | EmptyString => None
  | String c rest =>
      if String.eqb route "(.*)" then Some EmptyString
      else option_map (String c) (wildcard_stem rest)
  end.

Fixpoint starts_with (stem s : string) : bool :=
  match stem, s with
  | EmptyString, _ => true
  | String a stem', String b s' => Ascii.eqb a b && starts_with stem' s'
  | String _ _, EmptyString => false
  end.

(** A literal route against a lower-cased path. *)
Definition literal_match (route p : string) : bool :=
  String.eqb p route || String.eqb p (route ++ "/")
  || String.eqb p (route ++ "#") || String.eqb p (route ++ "?").

Definition routeMatches (route pathname : string) : bool :=
  let p := lower pathname in
  match wildcard_stem route with
  | Some stem => starts_with (lower stem) p
  | None => literal_match (lower route) p
  end.

Definition createRouteMatcher (routes : list string) (pathname : string) : bool :=
  existsb (fun route => routeMatches route pathname) routes.

Record AuthMiddlewareParams : Type := {
  publicRoutes : list string;
  ignoredRoutes : list string
}.

(** The options object of the default export. *)
Definition params : AuthMiddlewareParams :=
  {| publicRoutes := ["/"];
     ignoredRoutes := ["/api/webhook"; "/api/convex"] |}.

(** The request filter exported next to the middleware, each pattern
    with its text. The framework tests the pathname of a request against
    each pattern, anchored at both ends, and invokes the middleware when
    one of them matches. A pathname is ASCII here: the URL serialiser
    percent-encodes everything else. *)
Definition static_extension : Regex.Re :=
  Regex.any_of
    [Regex.Seq (Regex.Lit "htm") (Regex.Opt (Regex.Lit "l"));
     Regex.Lit "css";
     Regex.Seq (Regex.Lit "js") (Regex.NotAhead (Regex.Lit "on"));
     Regex.Seq (Regex.Lit "jp") (Regex.Seq (Regex.Opt (Regex.Lit "e")) (Regex.Lit "g"));
     Regex.Lit "webp"; Regex.Lit "png"; Regex.Lit "gif"; Regex.Lit "svg";
     Regex.Lit "ttf";
     Regex.Seq (Regex.Lit "woff") (Regex.Opt (Regex.Lit "2"));
     Regex.Lit "ico"; Regex.Lit "csv";
     Regex.Seq (Regex.Lit "doc") (Regex.Opt (Regex.Lit "x"));
     Regex.Seq (Regex.Lit "xls") (Regex.Opt (Regex.Lit "x"));
     Regex.Lit "zip"; Regex.Lit "webmanifest"].

Definition config_matcher : list (string * Regex.Re) :=
  [("/((?!_next|[^?]*\.(?:html?|css|js(?!on)|jpe?g|webp|png|gif|svg|ttf|woff2?|ico|csv|docx?|xlsx?|zip|webmanifest)).*)",
    Regex.Seq (Regex.Lit "/")
      (Regex.Seq
         (Regex.NotAhead
            (Regex.Alt (Regex.Lit "_next")
               (Regex.Seq (Regex.NoneOfStar "?")
                  (Regex.Seq (Regex.Lit ".") static_extension))))
         Regex.AnyStar));
   ("/(api|trpc)(.*)",
    Regex.Seq (Regex.Lit "/")
      (Regex.Seq (Regex.Alt (Regex.Lit "api") (Regex.Lit "trpc")) Regex.AnyStar))].

(** Whether the framework invokes the middleware on this pathname. *)
Definition selects (pathname : string) : bool :=
  existsb (fun pattern => Regex.test (snd pattern) pathname) config_matcher.

(** What the library makes of the credential of a request before any
    route rule applies: a verified session with its user id, no
    session, or one of two states in which it cannot tell yet (the
    interstitial state, as for an expired token or for development keys
    before the first exchange of cookies, and the unknown state). *)
Inductive RequestState : Type :=
| SignedIn (userId : string)
| SignedOut
| Interstitial
| Unknown.

Inductive Response : Type :=
| Forward           (* the request goes on to the application *)
| SignInChallenge   (* redirect to sign-in (401 for API-style requests) *)
| InterstitialPage  (* 401 with the interstitial page *)
| Unauthorized.     (* 401 *)

(** The library either answers or throws while rebuilding the request
    URL. *)
Inductive Outcome : Type :=
| Responds (r : Response)
| UrlError.

(** The library's [authMiddleware]. It first rebuilds the request URL
    from the pathname; a pathname that begins with two slashes is not
    read as a path there but as a reference that names a host, and the
    rebuild throws when no host follows: such a request gets no answer
    for its path. Then ignored routes are let through with no
    authentication information; the interstitial and unknown states are
    answered before the public routes are looked at; public routes can
    be accessed while signed out; any other route needs a signed-in
    user. *)
Definition authMiddleware (p : AuthMiddlewareParams)
    (pathname : string) (state : RequestState) : Outcome :=
  let isIgnoredRoute := createRouteMatcher (ignoredRoutes p) in
  let isPublicRoute := createRouteMatcher (publicRoutes p) in
  if starts_with "//" pathname then UrlError
  else if isIgnoredRoute pathname then Responds Forward
  else
    match state with
    | Unknown => Responds Unauthorized
    | Interstitial => Responds InterstitialPage
    | SignedOut =>
        if negb (isPublicRoute pathname) then Responds SignInChallenge
        else Responds Forward
    | SignedIn _ => Responds Forward
    end.

Definition middleware : string -> RequestState -> Outcome := authMiddleware params.

Definition isPublicRoute : string -> bool := createRouteMatcher (publicRoutes params).
Definition isIgnoredRoute : string -> bool := createRouteMatcher (ignoredRoutes params).

(** What happens to a request: the filter passes it by, or the
    middleware is invoked on it. *)
Inductive Passage : Type :=
| NotInvoked
| Invoked (o : Outcome).

(** The access gate: the filter and the middleware behind it. *)
Definition gate (pathname : string) (state : RequestState) : Passage :=
  if selects pathname then Invoked (middleware pathname state) else NotInvoked.

(** The request goes on to the application. *)
Definition reaches_application (g : Passage) : bool :=
  match g with
  | NotInvoked | Invoked (Responds Forward) => true
  | _ => false
  end.

Definition signed_in (state : RequestState) : bool :=
  match state with
  | SignedIn _ => true
  | _ => false
  end.

(** A path needs a credential when the gate stops a signed-out request
    on it with the sign-in challenge. *)
Definition requires_credential (pathname : string) : bool :=
  match gate pathname SignedOut with
  | Invoked (Responds SignInChallenge) => true
  | _ => false
  end.

(** The pattern set the route notes list for [src/middleware.ts]. *)
Definition protected_patterns : list string :=
  ["/dashboard(.*)"; "/schedule(.*)"; "/meeting(.*)"; "/recordings(.*)"].

Definition isProtectedRoute : string -> bool := createRouteMatcher protected_patterns.

End Middleware.

(** ** Traces and sample inputs used in the statements *)

(** The events of calls that all returned. *)
Definition completed_events (ops : list Effects.Op) : Effects.Trace :=
  map (fun op => Effects.Called op Effects.Returns) ops.

(** The handler of [endCall]: log the error, then the failure toast. *)
Definition failure_events (e : Effects.Error) : Effects.Trace :=
  [Effects.ConsoleError e; Effects.ToastError EndCallButton.failure_message].

(** An environment in which the video client rejects [endCall]. *)
Definition end_call_rejects : Effects.Oracle :=
  fun op =>
    match op with
    | Effects.CallEndCall => Effects.Throws "network error"
    | _ => Effects.Returns
    end.

Definition sample_interview : EndCallButton.Interview :=
  {| EndCallButton._id := "interview_1"; EndCallButton.status := "scheduled" |}.

Definition sample_world : Effects.World :=
  {| Effects.callEnded := false;
     Effects.interviewStatus := fun _ => "scheduled";
     Effects.route := "/meeting/call_1" |}.

(** A data client whose user lookup has not answered yet, and a
    signed-in identity. *)
Definition resolving_store : string -> Js.Lookup UserRole.UserDoc := fun _ => Js.Pending.

Definition signed_in_user : Js.Lookup UserRole.ClerkUser :=
  Js.Present {| UserRole.id := "user_1" |}.

(** ** MeetingModal.tsx: the rendered dialog and its handlers *)

Module JsTrim.

(** A string holds the UTF-8 bytes of the text, so a character takes one
    to three bytes here. [trim] strips white space and line
    terminators: TAB, LF, VT, FF, CR and SPACE (one byte each), U+00A0
    (two bytes), and U+1680, U+2000 to U+200A, U+2028, U+2029, U+202F,
    U+205F, U+3000 and U+FEFF (three bytes each). *)

(** TAB, LF, VT, FF, CR, SPACE. *)
Definition space1 (c : ascii) : bool :=
  let n := nat_of_ascii c in
  ((9 <=? n) && (n <=? 13) || (n =? 32))%nat.

(** U+00A0, bytes C2 A0. *)
Definition space2 (c1 c2 : ascii) : bool :=
  ((nat_of_ascii c1 =? 194) && (nat_of_ascii c2 =? 160))%nat.

(** U+1680 (E1 9A 80); U+2000 to U+200A (E2 80 80 to E2 80 8A); U+2028
    and U+2029 (E2 80 A8, E2 80 A9); U+202F (E2 80 AF); U+205F
    (E2 81 9F); U+3000 (E3 80 80); U+FEFF (EF BB BF). *)
Definition space3 (c1 c2 c3 : ascii) : bool :=
  let n1 := nat_of_ascii c1 in
  let n2 := nat_of_ascii c2 in
  let n3 := nat_of_ascii c3 in
  ((n1 =? 225) && (n2 =? 154) && (n3 =? 128)
   || (n1 =? 226) && (n2 =? 128)
      && ((128 <=? n3) && (n3 <=? 138) || (n3 =? 168) || (n3 =? 169) || (n3 =? 175))
   || (n1 =? 226) && (n2 =? 129) && (n3 =? 159)
   || (n1 =? 227) && (n2 =? 128) && (n3 =? 128)
   || (n1 =? 239) && (n2 =? 187) && (n3 =? 191))%nat.

Fixpoint trimStart (s : string) : string :=
  match s with
  | EmptyString => EmptyString
  | String c1 r1 =>
      if space1 c1 then trimStart r1
      else
        match r1 with
        | EmptyString => s
        | String c2 r2 =>
            if space2 c1 c2 then trimStart r2
            else
              match r2 with
              | EmptyString => s
              | String c3 r3 => if space3 c1 c2 c3 then trimStart r3 else s
              end
        end
  end.

(** Every character of [s] is white space or a line terminator. *)
Fixpoint blank (s : string) : bool :=
  match s with
  | EmptyString => true
  | String c1 r1 =>
      if space1 c1 then blank r1
      else
        match r1 with
        | EmptyString => false
        | String c2 r2 =>
            if space2 c1 c2 then blank r2
            else
              match r2 with
              | EmptyString => false
              | String c3 r3 => space3 c1 c2 c3 && blank r3
              end
        end
  end.

(** The text up to the point from which only white space follows. *)
Fixpoint trimEnd (s : string) : string :=
  match s with
  | EmptyString => EmptyString
  | String c rest => if blank s then EmptyString else String c (trimEnd rest)
  end.

(** [s.trim()] *)
Definition trim (s : string) : string := trimEnd (trimStart s).

End JsTrim.

Module MeetingModalUI.

Import MeetingModal.

Record MeetingModalProps : Type := {
  isOpen : bool;
  title : string;
  isJoinMeeting : bool
}.

(** What the component returns: the dialog with its title, the input
    (rendered in join mode only, showing the state) and the start button
    with its label and [disabled] attribute. *)
Record View : Type := {
  dialogOpen : bool;
  dialogTitle : string;
  input : option string;
  startLabel : string;
  startDisabled : bool
}.

(** [!meetingUrl.trim()] *)
Definition trims_to_empty (meetingUrl : string) : bool :=
  negb (Js.truthy (Some (JsTrim.trim meetingUrl))).

Definition render (props : MeetingModalProps) (meetingUrl : string) : View :=
  {| dialogOpen := isOpen props;
     dialogTitle := title props;
     input := if isJoinMeeting props then Some meetingUrl else None;
     startLabel := if isJoinMeeting props then "Join Interview" else "Start Interview";
     startDisabled := isJoinMeeting props && trims_to_empty meetingUrl |}.

(** What the user can do to the rendered dialog. *)
Inductive UserEvent : Type :=
| InputChange (value : string)  (* onChange of the input *)
| ClickCancel                   (* onClick of the Cancel button *)
| ClickStart                    (* onClick of the start button *)
| OpenChange.                   (* onOpenChange of the dialog *)

(** An event fires only on an element that is rendered and not
    disabled. *)
Definition can_fire (v : View) (ev : UserEvent) : bool :=
  dialogOpen v &&
  match ev with
  | InputChange _ => match input v with Some _ => true | None => false end
  | ClickStart => negb (startDisabled v)
  | ClickCancel | OpenChange => true
  end.

(** The handler bound to each event. *)
Definition handler (props : MeetingModalProps) (meetingUrl : string)
    (ev : UserEvent) : list Effect :=
  match ev with
  | InputChange value => [SetMeetingUrl value]
  | ClickCancel => [OnClose]
  | ClickStart => handleStart (isJoinMeeting props) meetingUrl
  | OpenChange => [OnClose]
  end.

(** One event on the dialog rendered from the current state: the
    effects it causes. *)
Definition dispatch (props : MeetingModalProps) (meetingUrl : string)
    (ev : UserEvent) : list Effect :=
  if can_fire (render props meetingUrl) ev then handler props meetingUrl ev else [].

(** A run of events with the props held fixed, each on the dialog
    re-rendered from the state the previous ones left: the final state
    and all effects in order. *)
Fixpoint interact (props : MeetingModalProps) (meetingUrl : string)
    (events : list UserEvent) : string * list Effect :=
  match events with
  | [] => (meetingUrl, [])
  | ev :: later =>
      let effects := dispatch props meetingUrl ev in
      let (final, more) := interact props (meetingUrl_after effects meetingUrl) later in
      (final, effects ++ more)
  end.

(** The state of a freshly mounted dialog: [useState("")]. *)
Definition initial_meetingUrl : string := "".

(** An effect that is not a [joinMeeting] call, or one whose id is
    non-empty and holds no slash. *)
Definition join_id_ok (e : Effect) : bool :=
  match e with
  | JoinMeeting id => negb (String.eqb id "") && Js.free_of "/" id
  | _ => true
  end.

(** What instant mode may do: create, reset to empty, close. *)
Definition instant_effect (e : Effect) : bool :=
  match e with
  | CreateInstantMeeting | OnClose => true
  | SetMeetingUrl v => String.eqb v ""
  | JoinMeeting _ | Alert _ => false
  end.

End MeetingModalUI.

(** An open dialog in join mode and one in instant mode. *)
Definition join_props : MeetingModalUI.MeetingModalProps :=
  {| MeetingModalUI.isOpen := true;
     MeetingModalUI.title := "Join Meeting";
     MeetingModalUI.isJoinMeeting := true |}.

Definition instant_props : MeetingModalUI.MeetingModalProps :=
  {| MeetingModalUI.isOpen := true;
     MeetingModalUI.title := "Start an Instant Meeting";
     MeetingModalUI.isJoinMeeting := false |}.

(** ** Reading a trace of the end-call action *)

Definition is_success_toast (ev : Effects.Event) : bool :=
  match ev with
  | Effects.ToastSuccess _ => true
  | _ => false
  end.

Definition is_failure_toast (ev : Effects.Event) : bool :=
  match ev with
  | Effects.ToastError _ => true
  | _ => false
  end.

Definition is_toast (ev : Effects.Event) : bool :=
  is_success_toast ev || is_failure_toast ev.

Definition is_console_error (ev : Effects.Event) : bool :=
  match ev with
  | Effects.ConsoleError _ => true
  | _ => false
  end.

Definition returned (o : Effects.Oracle) (op : Effects.Op) : bool :=
  match o op with
  | Effects.Returns => true
  | Effects.Throws _ => false
  end.

(** An environment in which every call returns, and one in which the
    data client rejects the status mutation. *)
Definition all_return : Effects.Oracle := fun _ => Effects.Returns.

Definition update_rejects : Effects.Oracle :=
  fun op =>
    match op with
    | Effects.UpdateInterviewStatus _ _ => Effects.Throws "mutation failed"
    | _ => Effects.Returns
    end.

(** ** Sample inputs for the rendered controls *)

Definition sample_call : EndCallButton.Call :=
  {| EndCallButton.call_id := "call_1";
     EndCallButton.state :=
       {| EndCallButton.createdBy := Some {| EndCallButton.id := "user_1" |} |} |}.

Definition sample_participant : EndCallButton.Participant :=
  {| EndCallButton.userId := "user_1" |}.

(** A data client that knows one interview, the one of [call_1]. *)
Definition one_interview_store : string -> Js.Lookup EndCallButton.Interview :=
  fun streamCallId =>
    if String.eqb streamCallId "call_1" then Js.Present sample_interview else Js.Absent.

(** A data client that has no record for any user. *)
Definition empty_user_store : string -> Js.Lookup UserRole.UserDoc := fun _ => Js.Absent.

(** ** The paths the gate lets through without a session *)

(** A route and the same route followed by one delimiter. *)
Definition with_delimiters (route : string) : list string :=
  [route; route ++ "/"; route ++ "#"; route ++ "?"]%string.

(** The root, alone or followed by a delimiter other than a second
    slash, and the two ignored routes with their delimiters. *)
Definition exempt_paths : list string :=
  ["/"; "/#"; "/?"] ++ with_delimiters "/api/webhook" ++ with_delimiters "/api/convex".

(** A character that is neither a dot nor a line terminator. *)
Definition plain_char (c : ascii) : bool :=
  negb (Ascii.eqb "." c) && negb (Regex.line_terminator c).

Fixpoint all_chars (p : ascii -> bool) (s : string) : bool :=
  match s with
  | EmptyString => true
  | String c rest => p c && all_chars p rest
  end.

(** The first character of [s], if any, is not an underscore. *)
Definition no_leading_underscore (s : string) : bool :=
  match s with
  | EmptyString => true
  | String c _ => negb (Ascii.eqb "_" c)
  end.

(** ** The middleware of the route notes *)

Module DocumentedMiddleware.

Import Middleware.

(** [src/middleware.ts] as the route notes give it: the handler passed
    to [clerkMiddleware] protects a request, that is lets it through
    only with a user, when its path matches the listed patterns; every
    other request goes on. It is exported with the same request
    filter. *)
Definition clerkMiddleware (pathname : string) (userId : option string) : Response :=
  if isProtectedRoute pathname then
    match userId with
    | None => SignInChallenge
    | Some _ => Forward
    end
  else Forward.

End DocumentedMiddleware.

(** ** Operation-level error handling of the dashboard notes *)

Module StatusUpdate.

Import Effects.

Definition failure_message : string := "Failed to update status".

(** [handleStatusUpdate(id, status)] *)
Definition handleStatusUpdate (id status : string) : M unit :=
  (try_catch
     (perform (UpdateInterviewStatus id status) ;;
      log (ToastSuccess ("Interview marked as " ++ status)))
     (fun error =>
        log (ToastError failure_message) ;;
        log (ConsoleError error)))%effects.

End StatusUpdate.

(** ** Dismissing the meeting dialog *)

(** The events that dismiss the dialog without starting anything. *)
Definition is_dismissal (ev : MeetingModalUI.UserEvent) : bool :=
  match ev with
  | MeetingModalUI.ClickCancel | MeetingModalUI.OpenChange => true
  | _ => false
  end.

(** A blank input of wide spaces: U+2003, U+3000 and U+FEFF, by their
    UTF-8 bytes, and a plain space. *)
Definition wide_blank : string :=
  String (ascii_of_nat 226) (String (ascii_of_nat 128) (String (ascii_of_nat 131)
  (String (ascii_of_nat 227) (String (ascii_of_nat 128) (String (ascii_of_nat 128)
  (String (ascii_of_nat 239) (String (ascii_of_nat 187) (String (ascii_of_nat 191)
  " ")))))))).

(** * Properties *)

(** ** Splitting on the separator *)

Lemma pop_last {A : Type} (l : list A) (x : A) : Js.pop (l ++ [x]) = Some x.
Proof.
  induction l as [|a l IH]; [reflexivity|].
  simpl. destruct (l ++ [x]) eqn:E; [destruct l; discriminate | exact IH].
Qed.

(** [split] ends with a separator-free segment, which is the whole
    input when there is one segment and what follows the last separator
    otherwise. *)
Lemma split_last_segment (sep : ascii) (s : string) :
  exists segs id,
    Js.split sep s = segs ++ [id]
    /\ Js.free_of sep id = true
    /\ ((segs = [] /\ s = id)
        \/ (segs <> [] /\ exists q, s = (q ++ String sep id)%string)).
Proof.
  induction s as [|c rest IH].
  - exists [], "". repeat split. now left.
  - destruct IH as (segs & id & Hsplit & Hfree & Hshape). simpl.
    destruct (Ascii.eqb_spec c sep) as [->|Hne].
    + exists ("" :: segs), id. rewrite Hsplit. repeat split; trivial.
      right. split; [discriminate|].
      destruct Hshape as [[_ ->]|[_ [q ->]]].
      * now exists "".
      * now exists (String sep q).
    + rewrite Hsplit. destruct segs as [|h t]; simpl.
      * exists [], (String c id). destruct Hshape as [[_ ->]|[[] _]]; trivial.
        repeat split; [|now left]. simpl.
        apply Ascii.eqb_neq in Hne. now rewrite Hne, Hfree.
      * exists (String c h :: t), id. repeat split; trivial.
        right. split; [discriminate|].
        destruct Hshape as [[? _]|[_ [q ->]]]; [discriminate|].
        now exists (String c q).
Qed.

Lemma free_of_append_sep (sep : ascii) (q id : string) :
  Js.free_of sep (q ++ String sep id)%string = false.
Proof.
  induction q as [|c q IH]; simpl.
  - now rewrite Ascii.eqb_refl.
  - rewrite IH. apply andb_false_r.
Qed.

Lemma tail_after_last_sep_unique (sep : ascii) (q q' id id' : string) :
  Js.free_of sep id = true -> Js.free_of sep id' = true ->
  (q ++ String sep id)%string = (q' ++ String sep id')%string -> id = id'.
Proof.
  intros Hid Hid'. revert q'.
  induction q as [|c q IH]; intros [|c' q'] H; simpl in H.
  - now injection H.
  - injection H as _ H. subst id. now rewrite free_of_append_sep in Hid.
  - injection H as _ H. subst id'. now rewrite free_of_append_sep in Hid'.
  - injection H as _ H. now apply IH with q'.
Qed.

(** The final segment of an input is determined by the input. *)
Lemma final_segment_unique (sep : ascii) (s id id' : string) :
  Js.free_of sep id = true -> Js.free_of sep id' = true ->
  (s = id \/ exists q, s = (q ++ String sep id)%string) ->
  (s = id' \/ exists q, s = (q ++ String sep id')%string) ->
  id = id'.
Proof.
  intros Hid Hid' [->|[q ->]] [H|[q' H]].
  - exact H.
  - subst id. now rewrite free_of_append_sep in Hid.
  - subst id'. now rewrite free_of_append_sep in Hid'.
  - now apply tail_after_last_sep_unique with sep q q'.
Qed.

Lemma handleStart_join (meetingUrl id : string) :
  MeetingModal.meetingId meetingUrl = Some id ->
  MeetingModal.handleStart true meetingUrl
  = (if String.eqb id "" then [MeetingModal.Alert MeetingModal.invalid_url_message]
     else [MeetingModal.JoinMeeting id])
    ++ [MeetingModal.SetMeetingUrl ""; MeetingModal.OnClose].
Proof.
  intros H. unfold MeetingModal.handleStart. rewrite H.
  now destruct id.
Qed.

Lemma join_meeting_shape (meetingUrl : string) :
  exists id, MeetingModal.meetingId meetingUrl = Some id.
Proof.
  destruct (split_last_segment "/" meetingUrl) as (segs & id & Hsplit & _).
  exists id. unfold MeetingModal.meetingId. rewrite Hsplit. apply pop_last.
Qed.

(** ** The meeting dialog *)

(** C2. In join mode the call id is the final segment of the input split
    on the slash: it contains no slash and is the whole input or what
    follows its last slash. The handler joins with that id when it is
    non-empty; when it is empty, and only then, it alerts the user and
    calls no helper, so nothing navigates or reaches a service. The pasted
    link gives [abc123]; the empty input and a trailing slash fail. *)
Theorem join_meeting_final_segment :
  forall meetingUrl : string,
    exists id,
      MeetingModal.meetingId meetingUrl = Some id
      /\ Js.free_of "/" id = true
      /\ (meetingUrl = id \/ exists q, meetingUrl = (q ++ String "/" id)%string)
      /\ MeetingModal.handleStart true meetingUrl
         = (if String.eqb id ""
            then [MeetingModal.Alert MeetingModal.invalid_url_message]
            else [MeetingModal.JoinMeeting id])
           ++ [MeetingModal.SetMeetingUrl ""; MeetingModal.OnClose]
      /\ existsb MeetingModal.is_alert (MeetingModal.handleStart true meetingUrl)
         = String.eqb id ""
      /\ existsb MeetingModal.leaves_page (MeetingModal.handleStart true meetingUrl)
         = negb (String.eqb id "")
      /\ MeetingModal.meetingId "https://x/y/abc123" = Some "abc123"
      /\ MeetingModal.handleStart true ""
         = [MeetingModal.Alert MeetingModal.invalid_url_message;
            MeetingModal.SetMeetingUrl ""; MeetingModal.OnClose]
      /\ MeetingModal.handleStart true "https://x/y/"
         = [MeetingModal.Alert MeetingModal.invalid_url_message;
            MeetingModal.SetMeetingUrl ""; MeetingModal.OnClose].
Proof.
  intros meetingUrl.
  destruct (split_last_segment "/" meetingUrl) as (segs & id & Hsplit & Hfree & Hshape).
  assert (Hid : MeetingModal.meetingId meetingUrl = Some id).
  { unfold MeetingModal.meetingId. rewrite Hsplit. apply pop_last. }
  exists id. split; [exact Hid|]. split; [exact Hfree|]. split.
  { destruct Hshape as [[_ ->]|[_ [q ->]]]; [now left | right; now exists q]. }
  rewrite (handleStart_join _ _ Hid).
  repeat split; try reflexivity; now destruct id.
Qed.

(** C9. Every run of the start handler, whichever branch it takes, ends
    by resetting the input to the empty string and calling [onClose]
    once; this includes the run whose validation failed. *)
Theorem handleStart_resets_and_closes :
  forall (isJoinMeeting : bool) (meetingUrl : string),
    (exists first,
        MeetingModal.handleStart isJoinMeeting meetingUrl
        = [first; MeetingModal.SetMeetingUrl ""; MeetingModal.OnClose]
        /\ MeetingModal.is_close first = false)
    /\ MeetingModal.meetingUrl_after
         (MeetingModal.handleStart isJoinMeeting meetingUrl) meetingUrl = ""
    /\ length (filter MeetingModal.is_close
                 (MeetingModal.handleStart isJoinMeeting meetingUrl)) = 1
    /\ MeetingModal.handleStart true "/"
       = [MeetingModal.Alert MeetingModal.invalid_url_message;
          MeetingModal.SetMeetingUrl ""; MeetingModal.OnClose]
    /\ MeetingModal.handleStart false meetingUrl
       = [MeetingModal.CreateInstantMeeting;
          MeetingModal.SetMeetingUrl ""; MeetingModal.OnClose].
Proof.
  intros isJoinMeeting meetingUrl.
  assert (Hfirst : exists first,
             MeetingModal.handleStart isJoinMeeting meetingUrl
             = [first; MeetingModal.SetMeetingUrl ""; MeetingModal.OnClose]
             /\ MeetingModal.is_close first = false).
  { destruct isJoinMeeting.
    - destruct (join_meeting_shape meetingUrl) as (id & Hid).
      rewrite (handleStart_join _ _ Hid).
      destruct (String.eqb id ""); eexists; split; reflexivity.
    - eexists; split; reflexivity. }
  split; [exact Hfirst|].
  destruct Hfirst as (first & -> & Hclose).
  unfold MeetingModal.meetingUrl_after. simpl. rewrite Hclose.
  repeat split; reflexivity.
Qed.

(** ** The end-call control *)

Section EndCallRender.

Import Js Effects EndCallButton.

Variable call : option Call.
Variable localParticipant : option Participant.
Variable getInterviewByStreamCallId : string -> Lookup Interview.

(** The button is rendered exactly when the call and the interview are
    there and the ownership test of the code passes. *)
Lemma renders_button_iff :
  renders_button (EndCallButton call localParticipant getInterviewByStreamCallId) = true
  <-> exists c i,
        call = Some c
        /\ getInterviewByStreamCallId (call_id c) = Present i
        /\ isMeetingOwner localParticipant c = true.
Proof.
  unfold EndCallButton. split.
  - destruct call as [c|]; simpl; [|destruct (getInterviewByStreamCallId ""); discriminate].
    destruct (getInterviewByStreamCallId (call_id c)) as [| |i] eqn:Hq; try discriminate.
    destruct (isMeetingOwner localParticipant c) eqn:Hown; [|discriminate].
    intros _. now exists c, i.
  - intros (c & i & -> & Hq & Hown). simpl. now rewrite Hq, Hown.
Qed.

(** Without a call or without an interview record nothing is rendered. *)
Lemma renders_null_without_data :
  call = None \/ falsy (getInterviewByStreamCallId (streamCallId call)) = true ->
  EndCallButton call localParticipant getInterviewByStreamCallId = Null.
Proof.
  unfold EndCallButton. intros [->|H]; simpl.
  - now destruct (getInterviewByStreamCallId "").
  - destruct (getInterviewByStreamCallId (streamCallId call)); try discriminate;
      now destruct call.
Qed.

End EndCallRender.

(** The ownership test passes for the creator, and also when neither a
    local participant nor a creator is there to compare. *)
Lemma isMeetingOwner_iff (lp : option EndCallButton.Participant) (c : EndCallButton.Call) :
  EndCallButton.isMeetingOwner lp c = true
  <-> EndCallButton.is_creator lp c
      \/ (lp = None /\ EndCallButton.createdBy (EndCallButton.state c) = None).
Proof.
  unfold EndCallButton.isMeetingOwner, EndCallButton.is_creator.
  destruct lp as [p|], (EndCallButton.createdBy (EndCallButton.state c)) as [u|];
    simpl; split.
  - intros H. apply String.eqb_eq in H. left. now exists p, u.
  - intros [(p' & u' & Hp & Hu & Heq)|[? _]]; [|discriminate].
    injection Hp as <-. injection Hu as <-. now apply String.eqb_eq.
  - discriminate.
  - intros [(p' & u' & _ & Hu & _)|[? _]]; discriminate.
  - discriminate.
  - intros [(p' & u' & Hp & _)|[_ ?]]; discriminate.
  - intros _. now right.
  - reflexivity.
Qed.

(** As soon as a local participant or a creator is known, the button is
    rendered exactly for the creator, with both data resolved. *)
Lemma button_for_creator_when_identified
    (c : EndCallButton.Call) (lp : option EndCallButton.Participant)
    (query : string -> Js.Lookup EndCallButton.Interview) :
  lp <> None \/ EndCallButton.createdBy (EndCallButton.state c) <> None ->
  EndCallButton.renders_button (EndCallButton.EndCallButton (Some c) lp query) = true
  <-> (exists i, query (EndCallButton.call_id c) = Js.Present i)
      /\ EndCallButton.is_creator lp c.
Proof.
  intros Hknown. rewrite renders_button_iff. split.
  - intros (c' & i & Hc & Hq & Hown). injection Hc as <-.
    split; [now exists i|].
    apply isMeetingOwner_iff in Hown. destruct Hown as [H|[Hlp Hcr]]; [exact H|].
    destruct Hknown; contradiction.
  - intros [(i & Hq) Hcreator]. exists c, i. repeat split; trivial.
    apply isMeetingOwner_iff. now left.
Qed.

(** C4. With a resolved call whose creator is not recorded, a resolved
    interview record and no local participant, the control renders its
    button although the viewer is not the creator. *)
Theorem end_call_button_without_identities :
  let c := {| EndCallButton.call_id := "call_1";
              EndCallButton.state := {| EndCallButton.createdBy := None |} |} in
  let interview := {| EndCallButton._id := "interview_1";
                      EndCallButton.status := "scheduled" |} in
  EndCallButton.renders_button
    (EndCallButton.EndCallButton (Some c) None (fun _ => Js.Present interview)) = true
  /\ ~ EndCallButton.is_creator None c.
Proof.
  split; [reflexivity|].
  intros (p & u & Hp & _). discriminate.
Qed.

(** ** The end-call action *)

(** C5. The action attempts its steps in program order: ending the call,
    marking the interview completed, navigating home. Either all three
    return and the trace is exactly these calls followed by the success
    toast, or the first step that throws ends the sequence: the steps
    before it stay done, the error is logged and the failure toast shown,
    and nothing else happens. The action itself never rejects. *)
Theorem endCall_order_and_failure :
  forall (o : Effects.Oracle) (interview : EndCallButton.Interview),
    let t := fst (Effects.run (EndCallButton.endCall interview) o) in
    EndCallButton.steps interview
    = [Effects.CallEndCall;
       Effects.UpdateInterviewStatus (EndCallButton._id interview) "completed";
       Effects.RouterPush "/"]
    /\ snd (Effects.run (EndCallButton.endCall interview) o) = Effects.Ok tt
    /\ ((Forall (fun op => o op = Effects.Returns) (EndCallButton.steps interview)
         /\ t = completed_events (EndCallButton.steps interview)
                ++ [Effects.ToastSuccess EndCallButton.success_message])
        \/ exists done op rest e,
             EndCallButton.steps interview = done ++ op :: rest
             /\ Forall (fun d => o d = Effects.Returns) done
             /\ o op = Effects.Throws e
             /\ t = completed_events done
                    ++ Effects.Called op (Effects.Throws e) :: failure_events e).
Proof.
  intros o interview t. subst t.
  split; [reflexivity|].
  unfold Effects.run, EndCallButton.endCall, Effects.try_catch, Effects.bind,
    Effects.perform, Effects.log, EndCallButton.steps.
  simpl.
  destruct (o Effects.CallEndCall) as [|e1] eqn:H1; simpl.
  - destruct (o (Effects.UpdateInterviewStatus (EndCallButton._id interview) "completed"))
      as [|e2] eqn:H2; simpl.
    + destruct (o (Effects.RouterPush "/")) as [|e3] eqn:H3; simpl.
      * split; [reflexivity|]. left. split; [|reflexivity].
        repeat constructor; assumption.
      * split; [reflexivity|]. right.
        exists [Effects.CallEndCall;
                Effects.UpdateInterviewStatus (EndCallButton._id interview) "completed"],
               (Effects.RouterPush "/"), [], e3.
        repeat split; trivial. repeat constructor; assumption.
    + split; [reflexivity|]. right.
      exists [Effects.CallEndCall],
             (Effects.UpdateInterviewStatus (EndCallButton._id interview) "completed"),
             [Effects.RouterPush "/"], e2.
      repeat split; trivial. repeat constructor; assumption.
  - split; [reflexivity|]. right.
    exists [], Effects.CallEndCall,
           [Effects.UpdateInterviewStatus (EndCallButton._id interview) "completed";
            Effects.RouterPush "/"], e1.
    repeat split; trivial.
Qed.

(** C10. When ending the call throws, the action stops there: the
    status mutation and the navigation are never issued, so the interview
    status and the route are what they were; only the log and the failure
    toast follow. *)
Theorem endCall_first_step_failure :
  forall (o : Effects.Oracle) (interview : EndCallButton.Interview)
         (w : Effects.World) (e : Effects.Error),
    o Effects.CallEndCall = Effects.Throws e ->
    let t := fst (Effects.run (EndCallButton.endCall interview) o) in
    t = Effects.Called Effects.CallEndCall (Effects.Throws e) :: failure_events e
    /\ existsb Effects.is_update t = false
    /\ existsb Effects.is_navigation t = false
    /\ Effects.apply_trace t w = w.
Proof.
  intros o interview w e He t. subst t.
  unfold Effects.run, EndCallButton.endCall, Effects.try_catch, Effects.bind,
    Effects.perform, Effects.log.
  simpl. rewrite He. simpl. repeat split.
Qed.

Lemma endCall_first_step_failure_witness :
  end_call_rejects Effects.CallEndCall = Effects.Throws "network error"
  /\ Effects.apply_trace
       (fst (Effects.run (EndCallButton.endCall sample_interview) end_call_rejects))
       sample_world = sample_world.
Proof.
  split; [reflexivity|].
  apply (endCall_first_step_failure end_call_rejects sample_interview sample_world
           "network error").
  reflexivity.
Defined.

(** The later steps are issued only behind a successful end of the call. *)
Lemma update_or_navigation_after_end (o : Effects.Oracle)
    (interview : EndCallButton.Interview) :
  let t := fst (Effects.run (EndCallButton.endCall interview) o) in
  existsb Effects.is_update t || existsb Effects.is_navigation t = true ->
  exists rest, t = Effects.Called Effects.CallEndCall Effects.Returns :: rest.
Proof.
  unfold Effects.run, EndCallButton.endCall, Effects.try_catch, Effects.bind,
    Effects.perform, Effects.log.
  simpl. destruct (o Effects.CallEndCall) eqn:H1; simpl.
  - intros _.
    destruct (o (Effects.UpdateInterviewStatus _ _)); simpl;
      [destruct (o (Effects.RouterPush _)); simpl|]; eexists; reflexivity.
  - discriminate.
Qed.

(** ** The role hook *)

Section RoleHook.

Import Js UserRole.

Variable getUserByClerkId : string -> Lookup UserDoc.
Variable user : Lookup ClerkUser.

Let userData := getUserByClerkId (clerkId user).
Let r := useUserRole getUserByClerkId user.

Lemma isLoading_iff : isLoading r = true <-> userData = Pending.
Proof.
  subst r userData. unfold useUserRole. simpl.
  destruct (getUserByClerkId (clerkId user)); split; congruence.
Qed.

Lemma role_flag_iff (name : string) :
  strict_eq (opt_chain userData role) (Some name) = true
  <-> exists doc, userData = Present doc /\ role doc = name.
Proof.
  destruct userData as [| |doc]; simpl; split;
    try discriminate; try (intros (d & H & _); discriminate).
  - intros H. apply String.eqb_eq in H. now exists doc.
  - intros (d & H & <-). injection H as ->. apply String.eqb_refl.
Qed.

Lemma flags_at_most_one : at_most_one r = true.
Proof.
  subst r. unfold useUserRole, at_most_one. simpl.
  destruct (getUserByClerkId (clerkId user)) as [| |doc]; simpl; trivial.
  destruct (String.eqb_spec (role doc) "interviewer") as [->|_]; reflexivity.
Qed.

End RoleHook.

(** C3, as stated, fails: when the record lookup resolves to no record
    the hook reports neither loading nor any role, so its output is none
    of the three values and candidate is not a default. *)
Lemma role_tri_state_counterexample :
  ~ (forall (getUserByClerkId : string -> Js.Lookup UserRole.UserDoc)
            (user : Js.Lookup UserRole.ClerkUser),
        let r := UserRole.useUserRole getUserByClerkId user in
        UserRole.tri_state r = true
        /\ (UserRole.isLoading r = false ->
            UserRole.records_interviewer (getUserByClerkId (UserRole.clerkId user)) = false ->
            UserRole.isCandidate r = true)).
Proof.
  intros H.
  destruct (H (fun _ => Js.Absent) (Js.Present {| UserRole.id := "user_1" |})) as [Htri _].
  discriminate Htri.
Qed.

(** C3, amended. The hook sets at most one of its three flags: loading
    exactly while the user-record lookup is unresolved, interviewer
    exactly when the resolved record says [interviewer], candidate
    exactly when it says [candidate]. While the lookup is unresolved no
    role is reported. *)
Theorem role_flags_follow_record :
  forall (getUserByClerkId : string -> Js.Lookup UserRole.UserDoc)
         (user : Js.Lookup UserRole.ClerkUser),
    let userData := getUserByClerkId (UserRole.clerkId user) in
    let r := UserRole.useUserRole getUserByClerkId user in
    (UserRole.isLoading r = true <-> userData = Js.Pending)
    /\ (UserRole.isInterviewer r = true
        <-> exists doc, userData = Js.Present doc /\ UserRole.role doc = "interviewer")
    /\ (UserRole.isCandidate r = true
        <-> exists doc, userData = Js.Present doc /\ UserRole.role doc = "candidate")
    /\ UserRole.at_most_one r = true
    /\ (UserRole.isLoading r = true ->
        UserRole.isInterviewer r = false /\ UserRole.isCandidate r = false).
Proof.
  intros getUserByClerkId user userData r.
  split; [apply isLoading_iff|].
  split; [apply role_flag_iff|].
  split; [apply role_flag_iff|].
  split; [apply flags_at_most_one|].
  intros Hload. apply isLoading_iff in Hload.
  subst r userData. unfold UserRole.useUserRole. simpl.
  rewrite Hload. now split.
Qed.

Lemma role_flags_follow_record_witness :
  let r := UserRole.useUserRole resolving_store signed_in_user in
  UserRole.isLoading r = true
  /\ UserRole.isInterviewer r = false /\ UserRole.isCandidate r = false.
Proof.
  split; [reflexivity|].
  apply (role_flags_follow_record resolving_store signed_in_user). reflexivity.
Defined.

(** C8. The dashboard button renders nothing while the role is loading
    and nothing for a candidate; the link appears exactly when the lookup
    has resolved and the record does not say candidate. The schedule page
    shows its loader, not its content, while the role is loading. *)
Theorem dashboard_button_waits_for_role :
  forall (getUserByClerkId : string -> Js.Lookup UserRole.UserDoc)
         (user : Js.Lookup UserRole.ClerkUser),
    let userData := getUserByClerkId (UserRole.clerkId user) in
    let r := UserRole.useUserRole getUserByClerkId user in
    (UserRole.isLoading r = true ->
       DashboardBtn.DashboardBtn r = DashboardBtn.Null
       /\ SchedulePage.SchedulePage r = SchedulePage.LoaderUI)
    /\ (UserRole.isCandidate r = true -> DashboardBtn.DashboardBtn r = DashboardBtn.Null)
    /\ (DashboardBtn.DashboardBtn r = DashboardBtn.DashboardLink "/dashboard"
        <-> userData <> Js.Pending
            /\ ~ (exists doc, userData = Js.Present doc /\ UserRole.role doc = "candidate"))
    /\ (DashboardBtn.DashboardBtn r <> DashboardBtn.Null ->
        UserRole.isLoading r = false /\ UserRole.isCandidate r = false).
Proof.
  intros getUserByClerkId user userData r.
  pose proof (isLoading_iff getUserByClerkId user) as Hload.
  pose proof (role_flag_iff getUserByClerkId user "candidate") as Hcand.
  fold userData in Hload, Hcand.
  change (UserRole.isLoading r = true <-> userData = Js.Pending) in Hload.
  change (UserRole.isCandidate r = true
          <-> exists doc, userData = Js.Present doc /\ UserRole.role doc = "candidate")
    in Hcand.
  unfold DashboardBtn.DashboardBtn, SchedulePage.SchedulePage.
  destruct (UserRole.isLoading r) eqn:El, (UserRole.isCandidate r) eqn:Ec; simpl;
    repeat split; try discriminate; try congruence; try tauto.
  - intros Hp. apply Hload in Hp. discriminate.
  - intros Hc. apply Hcand in Hc. discriminate.
Qed.

(** ** The hydration-safe player *)

Lemma server_flag_stays_false (n : nat) :
  Hydration.at_render Hydration.Server n = Hydration.initial.
Proof. induction n as [|n IH]; simpl; trivial. Qed.

Lemma client_flag_after_mount (n : nat) :
  Hydration.at_render Hydration.Client (S n)
  = {| Hydration.flag := true; Hydration.effectPending := false |}.
Proof. induction n as [|n IH]; [reflexivity|]. simpl in *. now rewrite IH. Qed.

Lemma flag_set_only_on_client (env : Hydration.Environment) (n : nat) :
  Hydration.flag (Hydration.at_render env n) = true
  <-> env = Hydration.Client /\ 0 < n.
Proof.
  destruct env.
  - rewrite server_flag_stays_false. simpl. split; [discriminate | intros [? _]; discriminate].
  - destruct n as [|n].
    + simpl. split; [discriminate | intros [_ ?]; lia].
    + rewrite client_flag_after_mount. simpl. split; [split; [reflexivity | lia] | reflexivity].
Qed.

(** C7. While the mounted flag is false the player renders the
    placeholder and not the video element; with the flag set it renders
    the video element. The first render has the flag false in both
    environments, so its markup is the same on the server and on the
    client; the server never sets the flag, the client sets it by the
    mount effect, after which every render is the video element. *)
Theorem video_player_first_render_agrees :
  forall (props : VideoPlayer.VideoPlayerProps) (st : Hydration.MountState) (n : nat),
    VideoPlayer.is_video (VideoPlayer.VideoPlayer props st) = Hydration.flag st
    /\ VideoPlayer.markup Hydration.Server props 0
       = VideoPlayer.markup Hydration.Client props 0
    /\ VideoPlayer.markup Hydration.Client props 0
       = VideoPlayer.PlaceholderDiv
           (Js.interpolate (VideoPlayer.className props) ++ VideoPlayer.placeholder_classes)
           "Loading video..." "Loading..."
    /\ VideoPlayer.markup Hydration.Server props n
       = VideoPlayer.markup Hydration.Server props 0
    /\ VideoPlayer.markup Hydration.Client props (S n)
       = VideoPlayer.Video (VideoPlayer.src props) (VideoPlayer.className props)
           (VideoPlayer.ariaLabel props)
    /\ (forall env k,
          VideoPlayer.is_video (VideoPlayer.markup env props k) = true
          <-> env = Hydration.Client /\ 0 < k)
    /\ Hydration.useIsClient (Hydration.at_render Hydration.Server n) = false
    /\ Hydration.useIsClient (Hydration.at_render Hydration.Client 0) = false
    /\ Hydration.useIsClient (Hydration.at_render Hydration.Client (S n)) = true.
Proof.
  intros props st n.
  assert (Hflag : forall s, VideoPlayer.is_video (VideoPlayer.VideoPlayer props s)
                            = Hydration.flag s).
  { intros s. unfold VideoPlayer.VideoPlayer. now destruct (Hydration.flag s). }
  unfold VideoPlayer.markup, Hydration.useIsClient.
  rewrite !(server_flag_stays_false n), !(client_flag_after_mount n).
  split; [apply Hflag|].
  do 4 (split; [reflexivity|]).
  split; [|repeat split].
  intros env k. rewrite Hflag. apply flag_set_only_on_client.
Qed.

(** ** The access gate *)

Section RouteMatching.

Import Middleware.

Lemma starts_with_two (a b : ascii) (stem s : string) :
  starts_with (String a (String b stem)) s = true ->
  exists rest, s = String a (String b rest).
Proof.
  destruct s as [|a' [|b' rest]]; simpl; try discriminate.
  - now rewrite andb_false_r.
  - destruct (Ascii.eqb_spec a a') as [<-|]; [|discriminate].
    destruct (Ascii.eqb_spec b b') as [<-|]; [|discriminate].
    intros _. now exists rest.
Qed.

Lemma isProtectedRoute_unfold (pathname : string) :
  isProtectedRoute pathname
  = starts_with "/dashboard" (lower pathname)
    || (starts_with "/schedule" (lower pathname)
        || (starts_with "/meeting" (lower pathname)
            || (starts_with "/recordings" (lower pathname) || false))).
Proof. reflexivity. Qed.

Lemma isPublicRoute_unfold (pathname : string) :
  isPublicRoute pathname = literal_match "/" (lower pathname) || false.
Proof. reflexivity. Qed.

Lemma isIgnoredRoute_unfold (pathname : string) :
  isIgnoredRoute pathname
  = literal_match "/api/webhook" (lower pathname)
    || (literal_match "/api/convex" (lower pathname) || false).
Proof. reflexivity. Qed.

(** Lower-casing moves no character onto or off the slash, the dot, the
    underscore or a line terminator. *)
Lemma slash_lower (c : ascii) : Ascii.eqb "/" (lower_ascii c) = Ascii.eqb "/" c.
Proof. destruct c as [[] [] [] [] [] [] [] []]; reflexivity. Qed.

Lemma underscore_lower (c : ascii) : Ascii.eqb "_" (lower_ascii c) = Ascii.eqb "_" c.
Proof. destruct c as [[] [] [] [] [] [] [] []]; reflexivity. Qed.

Lemma plain_char_lower (c : ascii) : plain_char (lower_ascii c) = plain_char c.
Proof. destruct c as [[] [] [] [] [] [] [] []]; reflexivity. Qed.

Lemma double_slash_lower (pathname : string) :
  starts_with "//" (lower pathname) = starts_with "//" pathname.
Proof.
  destruct pathname as [|a [|b rest]]; cbn [starts_with lower]; trivial.
  - now rewrite slash_lower.
  - now rewrite !slash_lower.
Qed.

Lemma all_chars_lower (s : string) :
  all_chars plain_char (lower s) = all_chars plain_char s.
Proof.
  induction s as [|c s IH]; cbn [all_chars lower]; [|rewrite plain_char_lower, IH];
    reflexivity.
Qed.

Lemma no_leading_underscore_lower (s : string) :
  no_leading_underscore (lower s) = no_leading_underscore s.
Proof.
  destruct s as [|c s]; cbn [no_leading_underscore lower]; [|rewrite underscore_lower];
    reflexivity.
Qed.

(** A path under one of the four listed prefixes is neither the public
    root nor an ignored route, and does not begin with two slashes. *)
Lemma protected_not_public_nor_ignored (pathname : string) :
  isProtectedRoute pathname = true ->
  isPublicRoute pathname = false /\ isIgnoredRoute pathname = false
  /\ starts_with "//" pathname = false.
Proof.
  rewrite isProtectedRoute_unfold, isPublicRoute_unfold, isIgnoredRoute_unfold,
    <- double_slash_lower.
  generalize (lower pathname). intros p H.
  repeat rewrite orb_false_r in H.
  repeat (apply orb_true_iff in H; destruct H as [H|H]);
    apply starts_with_two in H; destruct H as [rest ->]; repeat split; reflexivity.
Qed.

Lemma middleware_cases (pathname : string) (state : RequestState) :
  middleware pathname state
  = if starts_with "//" pathname then UrlError
    else if isIgnoredRoute pathname then Responds Forward
    else match state with
         | Unknown => Responds Unauthorized
         | Interstitial => Responds InterstitialPage
         | SignedOut =>
             if isPublicRoute pathname then Responds Forward
             else Responds SignInChallenge
         | SignedIn _ => Responds Forward
         end.
Proof.
  unfold middleware, authMiddleware, isIgnoredRoute, isPublicRoute.
  destruct (starts_with "//" pathname); trivial.
  destruct (createRouteMatcher (ignoredRoutes params) pathname); trivial.
  destruct state; trivial.
  now destruct (createRouteMatcher (publicRoutes params) pathname).
Qed.

(** *** What the filter selects *)

Lemma star_consumes (allowed : ascii -> bool) (s : string) (k : string -> bool) :
  all_chars allowed s = true -> k "" = true -> Regex.star allowed s k = true.
Proof.
  intros Hall Hk. induction s as [|c s IH]; simpl.
  - now rewrite Hk.
  - simpl in Hall. apply andb_true_iff in Hall. destruct Hall as [Hc Hs].
    rewrite Hc, (IH Hs). apply orb_true_r.
Qed.

(** Without a dot in the text the static-file alternative of the
    lookahead finds nothing. *)
Lemma lookahead_needs_dot (allowed : ascii -> bool) (ext : Regex.Re)
    (s : string) (k : string -> bool) :
  all_chars plain_char s = true ->
  Regex.star allowed s
    (fun rest => match Regex.strip "." rest with
                 | Some after => Regex.run ext after k
                 | None => false
                 end) = false.
Proof.
  induction s as [|c s IH]; intros Hall; [reflexivity|].
  cbn [all_chars] in Hall. apply andb_true_iff in Hall. destruct Hall as [Hc Hs].
  unfold plain_char in Hc. apply andb_true_iff in Hc. destruct Hc as [Hdot _].
  apply negb_true_iff in Hdot. specialize (IH Hs).
  change (Regex.star allowed (String c s)
            (fun rest => match Regex.strip "." rest with
                         | Some after => Regex.run ext after k
                         | None => false
                         end))
    with (match (if Ascii.eqb "." c then Some s else None) with
          | Some after => Regex.run ext after k
          | None => false
          end
          || allowed c
             && Regex.star allowed s
                  (fun rest => match Regex.strip "." rest with
                               | Some after => Regex.run ext after k
                               | None => false
                               end)).
  rewrite IH, Hdot. simpl. apply andb_false_r.
Qed.

Lemma plain_not_terminator (s : string) :
  all_chars plain_char s = true ->
  all_chars (fun c => negb (Regex.line_terminator c)) s = true.
Proof.
  induction s as [|c s IH]; simpl; trivial.
  intros H. apply andb_true_iff in H. destruct H as [Hc Hs].
  unfold plain_char in Hc. apply andb_true_iff in Hc. destruct Hc as [_ Hc].
  now rewrite Hc, (IH Hs).
Qed.

(** The first pattern of the filter on a path that begins with a
    slash. *)
Lemma first_pattern_unfold (rest : string) :
  selects (String "/" rest)
  = negb (match Regex.strip "_next" rest with Some _ => true | None => false end
          || Regex.star (fun c => negb (Ascii.eqb c "?")) rest
               (fun r => match Regex.strip "." r with
                         | Some after =>
                             Regex.run static_extension after (fun _ => true)
                         | None => false
                         end))
    && Regex.star (fun c => negb (Regex.line_terminator c)) rest
         (fun r => String.eqb r "")
    || (Regex.test (snd (nth 1 config_matcher ("", Regex.AnyStar))) (String "/" rest)
        || false).
Proof. reflexivity. Qed.

(** A path that begins with a slash, goes on with something other than
    an underscore, and holds no dot and no line terminator is selected. *)
Lemma selects_plain (rest : string) :
  no_leading_underscore rest = true ->
  all_chars plain_char rest = true ->
  selects (String "/" rest) = true.
Proof.
  intros Hlead Hplain. rewrite first_pattern_unfold.
  rewrite (lookahead_needs_dot _ _ _ _ Hplain).
  rewrite (star_consumes _ _ _ (plain_not_terminator _ Hplain) eq_refl).
  assert (Hnext : Regex.strip "_next" rest = None).
  { destruct rest as [|c rest]; [reflexivity|]. cbn [no_leading_underscore] in Hlead.
    apply negb_true_iff in Hlead.
    change (Regex.strip "_next" (String c rest))
      with (if Ascii.eqb "_" c then Regex.strip "next" rest else None).
    now rewrite Hlead. }
  now rewrite Hnext.
Qed.

Lemma selects_of_lower (pathname rest : string) :
  lower pathname = String "/" rest ->
  no_leading_underscore rest = true ->
  all_chars plain_char rest = true ->
  selects pathname = true.
Proof.
  destruct pathname as [|c p]; [discriminate|]. cbn [lower].
  intros H Hlead Hplain. injection H as Hc <-.
  assert (c = "/"%char) as ->.
  { pose proof (slash_lower c) as Hs. rewrite Hc, Ascii.eqb_refl in Hs.
    symmetry in Hs. apply Ascii.eqb_eq in Hs. now symmetry. }
  apply selects_plain.
  - now rewrite <- no_leading_underscore_lower.
  - now rewrite <- all_chars_lower.
Qed.

Lemma literal_match_In (route p : string) :
  literal_match route p = true <-> In p (with_delimiters route).
Proof.
  unfold literal_match, with_delimiters. simpl.
  rewrite !orb_true_iff, !String.eqb_eq. intuition congruence.
Qed.

(** Every exempt path is one the filter selects. *)
Lemma exempt_is_selected (pathname : string) :
  In (lower pathname) exempt_paths -> selects pathname = true.
Proof.
  unfold exempt_paths, with_delimiters. simpl. intros H.
  repeat (destruct H as [H|H];
          [symmetry in H; apply (selects_of_lower _ _ H); reflexivity|]).
  contradiction.
Qed.

Lemma ignored_is_exempt (pathname : string) :
  isIgnoredRoute pathname = true -> In (lower pathname) exempt_paths.
Proof.
  rewrite isIgnoredRoute_unfold, orb_false_r, orb_true_iff, !literal_match_In.
  unfold exempt_paths. rewrite !in_app_iff. tauto.
Qed.

Lemma exempt_not_double_slash (pathname : string) :
  In (lower pathname) exempt_paths -> starts_with "//" pathname = false.
Proof.
  rewrite <- double_slash_lower. generalize (lower pathname). intros p.
  unfold exempt_paths, with_delimiters. simpl. intros H.
  repeat (destruct H as [H|H]; [now subst p|]). contradiction.
Qed.

(** On an ignored route the gate is invoked and forwards, whatever the
    state of the credential. *)
Lemma ignored_is_forwarded (pathname : string) (state : RequestState) :
  isIgnoredRoute pathname = true ->
  gate pathname state = Invoked (Responds Forward).
Proof.
  intros H. pose proof (ignored_is_exempt _ H) as Hex.
  unfold gate. rewrite (exempt_is_selected _ Hex), middleware_cases,
    (exempt_not_double_slash _ Hex), H. reflexivity.
Qed.

(** A signed-out request is forwarded by the gate exactly on the exempt
    paths. *)
Lemma forwarded_iff_exempt (pathname : string) :
  gate pathname SignedOut = Invoked (Responds Forward)
  <-> In (lower pathname) exempt_paths.
Proof.
  split.
  - unfold gate. destruct (selects pathname); [|discriminate].
    rewrite middleware_cases, <- double_slash_lower, isIgnoredRoute_unfold,
      isPublicRoute_unfold, !orb_false_r.
    generalize (lower pathname). intros p.
    destruct (starts_with "//" p) eqn:Hs; [discriminate|].
    unfold exempt_paths. rewrite !in_app_iff, <- !literal_match_In.
    destruct (literal_match "/api/webhook" p), (literal_match "/api/convex" p);
      simpl; try tauto.
    destruct (literal_match "/" p) eqn:Hroot; [|discriminate].
    intros _. left. apply literal_match_In in Hroot.
    unfold with_delimiters in Hroot. simpl in Hroot.
    destruct Hroot as [<-|[<-|[<-|[<-|[]]]]]; simpl; try tauto. discriminate Hs.
  - intros Hex. unfold gate.
    rewrite (exempt_is_selected _ Hex), middleware_cases, (exempt_not_double_slash _ Hex).
    destruct (isIgnoredRoute pathname) eqn:Hign; [reflexivity|].
    assert (Hpub : isPublicRoute pathname = true).
    { rewrite isIgnoredRoute_unfold, orb_false_r, orb_false_iff in Hign.
      destruct Hign as [Hw Hc].
      rewrite isPublicRoute_unfold, orb_false_r. apply literal_match_In.
      unfold exempt_paths in Hex. rewrite !in_app_iff, <- !literal_match_In in Hex.
      destruct Hex as [Hroot|[Hex|Hex]]; [|congruence|congruence].
      unfold with_delimiters. simpl in *. tauto. }
    now rewrite Hpub.
Qed.

End RouteMatching.

(** C1, as stated, fails: a request without a session on a path under a
    protected prefix that looks like a static file is passed by the
    request filter, so the gate is never invoked on it and the request
    goes on to the application. *)
Lemma protected_static_path_counterexample :
  ~ (forall pathname : string,
        Middleware.isProtectedRoute pathname = true ->
        Middleware.reaches_application (Middleware.gate pathname Middleware.SignedOut)
        = false).
Proof.
  intros H. specialize (H "/meeting/abc.css" eq_refl). discriminate H.
Qed.

(** C1, amended. A request that the request filter selects, whose path
    matches one of the protected patterns and which carries no valid
    session, is answered by the gate itself, with the sign-in challenge
    when it is signed out and with a 401 while its credential is in the
    interstitial or unknown state; it does not go on to the
    application. *)
Theorem protected_unauthenticated_is_challenged :
  forall (pathname : string) (state : Middleware.RequestState),
    Middleware.selects pathname = true ->
    Middleware.isProtectedRoute pathname = true ->
    Middleware.signed_in state = false ->
    Middleware.gate pathname state
    = Middleware.Invoked
        (Middleware.Responds
           match state with
           | Middleware.Interstitial => Middleware.InterstitialPage
           | Middleware.Unknown => Middleware.Unauthorized
           | _ => Middleware.SignInChallenge
           end)
    /\ Middleware.reaches_application (Middleware.gate pathname state) = false.
Proof.
  intros pathname state Hsel Hprot Hout.
  destruct (protected_not_public_nor_ignored pathname Hprot) as (Hpub & Hign & Hslash).
  unfold Middleware.gate. rewrite Hsel, middleware_cases, Hslash, Hign, Hpub.
  destruct state; try discriminate Hout; now split.
Qed.

Lemma protected_unauthenticated_is_challenged_witness :
  Middleware.selects "/meeting/abc123" = true
  /\ Middleware.isProtectedRoute "/meeting/abc123" = true
  /\ Middleware.gate "/meeting/abc123" Middleware.SignedOut
     = Middleware.Invoked (Middleware.Responds Middleware.SignInChallenge).
Proof.
  split; [reflexivity|]. split; [reflexivity|].
  apply (protected_unauthenticated_is_challenged "/meeting/abc123" Middleware.SignedOut);
    reflexivity.
Defined.

(** C6, as stated, fails: a path outside the four listed prefixes, other
    than the root and the ignored routes, also needs a credential; and
    the root is not let through whatever the credential, since a
    credential in the interstitial state is answered with a 401 there. *)
Lemma protected_iff_listed_counterexample :
  ~ (forall pathname : string,
        Middleware.requires_credential pathname = true
        <-> Middleware.isProtectedRoute pathname = true)
  /\ ~ (forall state : Middleware.RequestState,
          Middleware.reaches_application (Middleware.gate "/" state) = true).
Proof.
  split.
  - intros H. destruct (H "/profile") as [Hlisted _].
    specialize (Hlisted eq_refl). discriminate Hlisted.
  - intros H. specialize (H Middleware.Interstitial). discriminate H.
Qed.

(** C6, amended. Among the requests the request filter selects, a path
    needs a credential exactly when it is neither the public root nor an
    ignored route (nor begins with two slashes, which the library does
    not read as a path); every selected path under the four listed
    prefixes is such a path. The root is forwarded for a signed-in and
    for a signed-out request, and answered with a 401 while the
    credential is in the interstitial or unknown state. An ignored
    route, the two bridge paths among them, is always selected and
    forwarded whatever the state of the credential. *)
Theorem gate_classification :
  forall (pathname : string) (state : Middleware.RequestState),
    Middleware.requires_credential pathname
    = Middleware.selects pathname
      && negb (Middleware.starts_with "//" pathname)
      && negb (Middleware.isPublicRoute pathname)
      && negb (Middleware.isIgnoredRoute pathname)
    /\ (Middleware.selects pathname = true ->
        Middleware.isProtectedRoute pathname = true ->
        Middleware.requires_credential pathname = true)
    /\ Middleware.isPublicRoute "/" = true
    /\ Middleware.gate "/" state
       = Middleware.Invoked
           (Middleware.Responds
              match state with
              | Middleware.Interstitial => Middleware.InterstitialPage
              | Middleware.Unknown => Middleware.Unauthorized
              | _ => Middleware.Forward
              end)
    /\ (Middleware.isIgnoredRoute pathname = true ->
        Middleware.gate pathname state
        = Middleware.Invoked (Middleware.Responds Middleware.Forward))
    /\ Middleware.isIgnoredRoute "/api/webhook" = true
    /\ Middleware.isIgnoredRoute "/api/convex" = true.
Proof.
  intros pathname state.
  assert (Hreq : Middleware.requires_credential pathname
                 = Middleware.selects pathname
                   && negb (Middleware.starts_with "//" pathname)
                   && negb (Middleware.isPublicRoute pathname)
                   && negb (Middleware.isIgnoredRoute pathname)).
  { unfold Middleware.requires_credential, Middleware.gate.
    destruct (Middleware.selects pathname); [|reflexivity].
    rewrite middleware_cases.
    destruct (Middleware.starts_with "//" pathname), (Middleware.isIgnoredRoute pathname),
      (Middleware.isPublicRoute pathname); reflexivity. }
  split; [exact Hreq|]. split.
  { intros Hsel H. rewrite Hreq, Hsel.
    destruct (protected_not_public_nor_ignored pathname H) as (-> & -> & ->).
    reflexivity. }
  split; [reflexivity|]. split; [now destruct state|].
  split; [apply ignored_is_forwarded|].
  split; reflexivity.
Qed.

Lemma dashboard_button_waits_for_role_witness :
  let r := UserRole.useUserRole resolving_store signed_in_user in
  UserRole.isLoading r = true
  /\ DashboardBtn.DashboardBtn r = DashboardBtn.Null
  /\ SchedulePage.SchedulePage r = SchedulePage.LoaderUI.
Proof.
  split; [reflexivity|].
  apply (dashboard_button_waits_for_role resolving_store signed_in_user). reflexivity.
Defined.

Lemma gate_classification_witness :
  Middleware.selects "/dashboard" = true
  /\ Middleware.isProtectedRoute "/dashboard" = true
  /\ Middleware.requires_credential "/dashboard" = true
  /\ Middleware.isIgnoredRoute "/api/webhook" = true
  /\ Middleware.gate "/api/webhook" Middleware.Interstitial
     = Middleware.Invoked (Middleware.Responds Middleware.Forward).
Proof.
  split; [reflexivity|]. split; [reflexivity|]. split.
  - apply (proj1 (proj2 (gate_classification "/dashboard" Middleware.SignedOut)));
      reflexivity.
  - split; [reflexivity|].
    apply (proj1 (proj2 (proj2 (proj2 (proj2
             (gate_classification "/api/webhook" Middleware.Interstitial)))))).
    reflexivity.
Defined.

(** * Further properties *)

(** ** The meeting dialog: inputs *)

Lemma meetingId_of_link (base id : string) :
  Js.free_of "/" id = true ->
  MeetingModal.meetingId (base ++ String "/" id)%string = Some id.
Proof.
  intros Hfree.
  destruct (split_last_segment "/" (base ++ String "/" id)%string)
    as (segs & id' & Hsplit & Hfree' & Hshape).
  unfold MeetingModal.meetingId. rewrite Hsplit, pop_last. f_equal.
  apply (final_segment_unique "/" (base ++ String "/" id)%string); trivial.
  - destruct Hshape as [[_ H]|[_ H]]; [now left | now right].
  - right. now exists base.
Qed.

Lemma meetingId_of_raw (id : string) :
  Js.free_of "/" id = true -> MeetingModal.meetingId id = Some id.
Proof.
  intros Hfree.
  destruct (split_last_segment "/" id) as (segs & id' & Hsplit & Hfree' & Hshape).
  unfold MeetingModal.meetingId. rewrite Hsplit, pop_last. f_equal.
  apply (final_segment_unique "/" id); trivial.
  - destruct Hshape as [[_ H]|[_ H]]; [now left | now right].
  - now left.
Qed.

(** X1. A raw id, that is a non-empty input without a slash, is passed
    to [joinMeeting] exactly as typed; nothing is trimmed or altered. *)
Theorem raw_id_joins_unchanged :
  forall id : string,
    Js.free_of "/" id = true -> id <> "" ->
    MeetingModal.handleStart true id
    = [MeetingModal.JoinMeeting id; MeetingModal.SetMeetingUrl ""; MeetingModal.OnClose].
Proof.
  intros id Hfree Hne.
  rewrite (handleStart_join _ _ (meetingId_of_raw id Hfree)).
  apply String.eqb_neq in Hne. now rewrite Hne.
Qed.

Lemma raw_id_joins_unchanged_witness :
  MeetingModal.handleStart true " abc123 "
  = [MeetingModal.JoinMeeting " abc123 "; MeetingModal.SetMeetingUrl "";
     MeetingModal.OnClose].
Proof.
  apply (raw_id_joins_unchanged " abc123 "); [reflexivity | discriminate].
Defined.

(** X2. Whatever precedes the last slash, a link that ends in a slash
    followed by a non-empty slash-free id joins with that id: the id a
    meeting path was built from is the id the handler derives from it. *)
Theorem link_joins_with_its_id :
  forall base id : string,
    Js.free_of "/" id = true -> id <> "" ->
    MeetingModal.handleStart true (base ++ String "/" id)%string
    = [MeetingModal.JoinMeeting id; MeetingModal.SetMeetingUrl ""; MeetingModal.OnClose].
Proof.
  intros base id Hfree Hne.
  rewrite (handleStart_join _ _ (meetingId_of_link base id Hfree)).
  apply String.eqb_neq in Hne. now rewrite Hne.
Qed.

Lemma link_joins_with_its_id_witness :
  MeetingModal.handleStart true "http://localhost:3000/meeting/abc123"
  = [MeetingModal.JoinMeeting "abc123"; MeetingModal.SetMeetingUrl "";
     MeetingModal.OnClose].
Proof.
  apply (link_joins_with_its_id "http://localhost:3000/meeting" "abc123");
    [reflexivity | discriminate].
Defined.

(** X3. In join mode the handler alerts exactly on the empty input and
    on inputs that end with a slash; on every other input it calls
    [joinMeeting]. *)
Theorem join_fails_on_empty_or_trailing_slash :
  forall meetingUrl : string,
    (existsb MeetingModal.is_alert (MeetingModal.handleStart true meetingUrl) = true
     <-> meetingUrl = "" \/ exists q, meetingUrl = (q ++ "/")%string)
    /\ existsb MeetingModal.leaves_page (MeetingModal.handleStart true meetingUrl)
       = negb (existsb MeetingModal.is_alert (MeetingModal.handleStart true meetingUrl)).
Proof.
  intros meetingUrl.
  destruct (split_last_segment "/" meetingUrl) as (segs & id & Hsplit & Hfree & Hshape).
  assert (Hid : MeetingModal.meetingId meetingUrl = Some id).
  { unfold MeetingModal.meetingId. rewrite Hsplit. apply pop_last. }
  rewrite (handleStart_join _ _ Hid).
  destruct (String.eqb_spec id "") as [->|Hne]; simpl; split; trivial; split.
  - intros _. destruct Hshape as [[_ ->]|[_ [q ->]]]; [now left | right; now exists q].
  - reflexivity.
  - discriminate.
  - intros [->|[q ->]].
    + destruct Hshape as [[_ H]|[_ [q H]]]; [now symmetry in H|].
      now destruct q.
    + exfalso. apply Hne.
      apply (final_segment_unique "/" (q ++ "/")%string id ""); trivial.
      * destruct Hshape as [[_ H]|[_ H]]; [now left | now right].
      * right. now exists q.
Qed.

(** ** The meeting dialog: what the user can do *)

Lemma trimStart_blank (s : string) : JsTrim.blank (JsTrim.trimStart s) = JsTrim.blank s.
Proof.
  assert (H : forall n s, String.length s <= n ->
                          JsTrim.blank (JsTrim.trimStart s) = JsTrim.blank s).
  { induction n as [|n IH]; intros [|c1 r1] Hlen; simpl in Hlen; try reflexivity; [lia|].
    cbn [JsTrim.trimStart].
    destruct (JsTrim.space1 c1) eqn:H1.
    { rewrite (IH r1) by lia. cbn [JsTrim.blank]. now rewrite H1. }
    destruct r1 as [|c2 r2]; [reflexivity|].
    destruct (JsTrim.space2 c1 c2) eqn:H2.
    { simpl in Hlen. rewrite (IH r2) by lia. cbn [JsTrim.blank]. now rewrite H1, H2. }
    destruct r2 as [|c3 r3]; [reflexivity|].
    destruct (JsTrim.space3 c1 c2 c3) eqn:H3; [|reflexivity].
    simpl in Hlen. rewrite (IH r3) by lia. cbn [JsTrim.blank].
    now rewrite H1, H2, H3. }
  apply (H (String.length s)). lia.
Qed.

Lemma trimEnd_empty_iff (s : string) :
  JsTrim.trimEnd s = "" <-> JsTrim.blank s = true.
Proof.
  destruct s as [|c rest]; [simpl; tauto|].
  cbn [JsTrim.trimEnd].
  destruct (JsTrim.blank (String c rest)); split; congruence.
Qed.

(** The start button tests for an input of white space only. *)
Lemma trims_to_empty_blank (s : string) :
  MeetingModalUI.trims_to_empty s = JsTrim.blank s.
Proof.
  unfold MeetingModalUI.trims_to_empty, JsTrim.trim.
  pose proof (trimEnd_empty_iff (JsTrim.trimStart s)) as H.
  rewrite trimStart_blank in H.
  destruct (JsTrim.trimEnd (JsTrim.trimStart s)); simpl.
  - symmetry. now apply H.
  - destruct (JsTrim.blank s); trivial.
    destruct H as [_ H]. discriminate (H eq_refl).
Qed.

Lemma meetingUrl_after_handleStart (isJoin : bool) (url before : string) :
  MeetingModal.meetingUrl_after (MeetingModal.handleStart isJoin url) before = "".
Proof.
  unfold MeetingModal.handleStart, MeetingModal.meetingUrl_after.
  rewrite fold_left_app. reflexivity.
Qed.

(** X4. In join mode the start button is disabled exactly while the
    input is blank (empty or white space only); clicking it then does
    nothing: no alert, no helper call, no close, and the input stays. *)
Theorem blank_input_blocks_start :
  forall (props : MeetingModalUI.MeetingModalProps) (meetingUrl : string),
    MeetingModalUI.isJoinMeeting props = true ->
    MeetingModalUI.startDisabled (MeetingModalUI.render props meetingUrl)
    = JsTrim.blank meetingUrl
    /\ (JsTrim.blank meetingUrl = true ->
        MeetingModalUI.interact props meetingUrl [MeetingModalUI.ClickStart]
        = (meetingUrl, [])).
Proof.
  intros props meetingUrl Hjoin.
  assert (Hdis : MeetingModalUI.startDisabled (MeetingModalUI.render props meetingUrl)
                 = JsTrim.blank meetingUrl).
  { simpl. now rewrite Hjoin, trims_to_empty_blank. }
  split; [exact Hdis|].
  intros Hblank. simpl. unfold MeetingModalUI.dispatch, MeetingModalUI.can_fire.
  rewrite Hdis, Hblank, andb_false_r. reflexivity.
Qed.

Lemma blank_input_blocks_start_witness :
  MeetingModalUI.isJoinMeeting join_props = true
  /\ JsTrim.blank wide_blank = true
  /\ MeetingModalUI.startDisabled (MeetingModalUI.render join_props wide_blank) = true
  /\ MeetingModalUI.interact join_props wide_blank [MeetingModalUI.ClickStart]
     = (wide_blank, []).
Proof.
  split; [reflexivity|]. split; [reflexivity|]. split.
  - apply (proj1 (blank_input_blocks_start join_props wide_blank eq_refl)).
  - apply (proj2 (blank_input_blocks_start join_props wide_blank eq_refl)).
    reflexivity.
Defined.

Lemma start_blocked_on_empty (props : MeetingModalUI.MeetingModalProps) :
  MeetingModalUI.isJoinMeeting props = true ->
  MeetingModalUI.dispatch props "" MeetingModalUI.ClickStart = [].
Proof.
  intros Hjoin. unfold MeetingModalUI.dispatch, MeetingModalUI.can_fire. simpl.
  rewrite Hjoin. simpl. now rewrite andb_false_r.
Qed.

(** X5. In join mode a second click on the start button right after a
    first one does nothing: the first click, if it fires, empties the
    input, which disables the button. At most one helper call results. *)
Theorem second_start_click_is_idle :
  forall (props : MeetingModalUI.MeetingModalProps) (meetingUrl : string),
    MeetingModalUI.isJoinMeeting props = true ->
    MeetingModalUI.interact props meetingUrl
      [MeetingModalUI.ClickStart; MeetingModalUI.ClickStart]
    = MeetingModalUI.interact props meetingUrl [MeetingModalUI.ClickStart].
Proof.
  intros props meetingUrl Hjoin.
  cbn [MeetingModalUI.interact].
  assert (Hsecond :
            MeetingModalUI.dispatch props
              (MeetingModal.meetingUrl_after
                 (MeetingModalUI.dispatch props meetingUrl MeetingModalUI.ClickStart)
                 meetingUrl)
              MeetingModalUI.ClickStart = []).
  { unfold MeetingModalUI.dispatch at 2.
    destruct (MeetingModalUI.can_fire (MeetingModalUI.render props meetingUrl)
                MeetingModalUI.ClickStart) eqn:Hfire.
    - cbn [MeetingModalUI.handler]. rewrite meetingUrl_after_handleStart.
      now apply start_blocked_on_empty.
    - cbn [MeetingModal.meetingUrl_after fold_left].
      unfold MeetingModalUI.dispatch. now rewrite Hfire. }
  rewrite Hsecond. reflexivity.
Qed.

Lemma second_start_click_is_idle_witness :
  MeetingModalUI.interact join_props "https://x/y/abc123"
    [MeetingModalUI.ClickStart; MeetingModalUI.ClickStart]
  = ("", [MeetingModal.JoinMeeting "abc123"; MeetingModal.SetMeetingUrl "";
          MeetingModal.OnClose]).
Proof.
  rewrite (second_start_click_is_idle join_props "https://x/y/abc123" eq_refl).
  reflexivity.
Defined.

Lemma instant_dispatch (props : MeetingModalUI.MeetingModalProps)
    (ev : MeetingModalUI.UserEvent) :
  MeetingModalUI.isJoinMeeting props = false ->
  forallb MeetingModalUI.instant_effect (MeetingModalUI.dispatch props "" ev) = true
  /\ MeetingModal.meetingUrl_after (MeetingModalUI.dispatch props "" ev) "" = "".
Proof.
  intros Hjoin. unfold MeetingModalUI.dispatch, MeetingModalUI.can_fire. simpl.
  rewrite Hjoin.
  destruct (MeetingModalUI.isOpen props), ev; simpl; try rewrite Hjoin; now split.
Qed.

(** X6. A dialog in instant mode, from its initial state and whatever
    the user does to it, never alerts and never calls [joinMeeting]; its
    input state stays empty. *)
Theorem instant_mode_never_joins :
  forall (props : MeetingModalUI.MeetingModalProps)
         (events : list MeetingModalUI.UserEvent),
    MeetingModalUI.isJoinMeeting props = false ->
    fst (MeetingModalUI.interact props MeetingModalUI.initial_meetingUrl events) = ""
    /\ forallb MeetingModalUI.instant_effect
         (snd (MeetingModalUI.interact props MeetingModalUI.initial_meetingUrl events))
       = true.
Proof.
  intros props events Hjoin. unfold MeetingModalUI.initial_meetingUrl.
  induction events as [|ev events IH]; [now split|].
  simpl. destruct (instant_dispatch props ev Hjoin) as [Hok Hstate].
  rewrite Hstate.
  destruct (MeetingModalUI.interact props "" events) as [final more].
  simpl in *. rewrite forallb_app, Hok. exact IH.
Qed.

Lemma instant_mode_never_joins_witness :
  snd (MeetingModalUI.interact instant_props MeetingModalUI.initial_meetingUrl
         [MeetingModalUI.InputChange "abc"; MeetingModalUI.ClickStart])
  = [MeetingModal.CreateInstantMeeting; MeetingModal.SetMeetingUrl "";
     MeetingModal.OnClose]
  /\ fst (MeetingModalUI.interact instant_props MeetingModalUI.initial_meetingUrl
            [MeetingModalUI.InputChange "abc"; MeetingModalUI.ClickStart]) = "".
Proof.
  split; [reflexivity|].
  apply (instant_mode_never_joins instant_props
           [MeetingModalUI.InputChange "abc"; MeetingModalUI.ClickStart]).
  reflexivity.
Defined.

Lemma dispatch_join_id_ok (props : MeetingModalUI.MeetingModalProps)
    (meetingUrl : string) (ev : MeetingModalUI.UserEvent) :
  forallb MeetingModalUI.join_id_ok (MeetingModalUI.dispatch props meetingUrl ev) = true.
Proof.
  unfold MeetingModalUI.dispatch.
  destruct (MeetingModalUI.can_fire _ ev); [|reflexivity].
  destruct ev; simpl; trivial.
  destruct (MeetingModalUI.isJoinMeeting props); [|reflexivity].
  destruct (split_last_segment "/" meetingUrl) as (segs & id & Hsplit & Hfree & _).
  assert (Hid : MeetingModal.meetingId meetingUrl = Some id).
  { unfold MeetingModal.meetingId. rewrite Hsplit. apply pop_last. }
  rewrite (handleStart_join _ _ Hid).
  destruct (String.eqb id "") eqn:He; simpl; [reflexivity|].
  now rewrite He, Hfree.
Qed.

(** X7. Whatever the props, the state and the user's actions, every id
    the dialog hands to [joinMeeting] is non-empty and contains no
    slash. *)
Theorem joined_ids_are_single_segments :
  forall (props : MeetingModalUI.MeetingModalProps) (meetingUrl : string)
         (events : list MeetingModalUI.UserEvent) (id : string),
    In (MeetingModal.JoinMeeting id)
       (snd (MeetingModalUI.interact props meetingUrl events)) ->
    id <> "" /\ Js.free_of "/" id = true.
Proof.
  intros props meetingUrl events id.
  assert (Hall : forallb MeetingModalUI.join_id_ok
                   (snd (MeetingModalUI.interact props meetingUrl events)) = true).
  { revert meetingUrl. induction events as [|ev events IH]; intros meetingUrl;
      [reflexivity|].
    simpl.
    specialize (IH (MeetingModal.meetingUrl_after
                      (MeetingModalUI.dispatch props meetingUrl ev) meetingUrl)).
    destruct (MeetingModalUI.interact props _ events) as [final more].
    simpl in *. now rewrite forallb_app, dispatch_join_id_ok. }
  intros Hin. rewrite forallb_forall in Hall. specialize (Hall _ Hin).
  simpl in Hall. apply andb_true_iff in Hall. destruct Hall as [Hne Hfree].
  split; [|exact Hfree].
  intros ->. discriminate Hne.
Qed.

Lemma joined_ids_are_single_segments_witness :
  In (MeetingModal.JoinMeeting "abc123")
     (snd (MeetingModalUI.interact join_props ""
             [MeetingModalUI.InputChange "https://x/y/abc123"; MeetingModalUI.ClickStart]))
  /\ Js.free_of "/" "abc123" = true.
Proof.
  split; [simpl; tauto|].
  apply (joined_ids_are_single_segments join_props ""
           [MeetingModalUI.InputChange "https://x/y/abc123"; MeetingModalUI.ClickStart]
           "abc123").
  simpl. tauto.
Defined.

(** ** The end-call action: outcomes *)

(** The four runs of [endCall], by the first call that throws. *)
Lemma endCall_trace (o : Effects.Oracle) (interview : EndCallButton.Interview) :
  fst (Effects.run (EndCallButton.endCall interview) o)
  = match o Effects.CallEndCall with
    | Effects.Throws e =>
        Effects.Called Effects.CallEndCall (Effects.Throws e) :: failure_events e
    | Effects.Returns =>
        Effects.Called Effects.CallEndCall Effects.Returns ::
        match o (Effects.UpdateInterviewStatus (EndCallButton._id interview) "completed") with
        | Effects.Throws e =>
            Effects.Called
              (Effects.UpdateInterviewStatus (EndCallButton._id interview) "completed")
              (Effects.Throws e) :: failure_events e
        | Effects.Returns =>
            Effects.Called
              (Effects.UpdateInterviewStatus (EndCallButton._id interview) "completed")
              Effects.Returns ::
            match o (Effects.RouterPush "/") with
            | Effects.Throws e =>
                Effects.Called (Effects.RouterPush "/") (Effects.Throws e)
                :: failure_events e
            | Effects.Returns =>
                [Effects.Called (Effects.RouterPush "/") Effects.Returns;
                 Effects.ToastSuccess EndCallButton.success_message]
            end
        end
    end.
Proof.
  unfold Effects.run, EndCallButton.endCall, Effects.try_catch, Effects.bind,
    Effects.perform, Effects.log.
  simpl.
  destruct (o Effects.CallEndCall); simpl; trivial.
  destruct (o (Effects.UpdateInterviewStatus _ _)); simpl; trivial.
  destruct (o (Effects.RouterPush _)); reflexivity.
Qed.

(** X8. Every run of the end-call action shows exactly one toast. It is
    the success toast exactly when all three calls returned; otherwise
    it is the failure toast, and the error was logged to the console
    exactly once. *)
Theorem endCall_shows_one_toast :
  forall (o : Effects.Oracle) (interview : EndCallButton.Interview),
    let t := fst (Effects.run (EndCallButton.endCall interview) o) in
    length (filter is_toast t) = 1
    /\ existsb is_success_toast t = forallb (returned o) (EndCallButton.steps interview)
    /\ existsb is_failure_toast t
       = negb (forallb (returned o) (EndCallButton.steps interview))
    /\ length (filter is_console_error t) = length (filter is_failure_toast t).
Proof.
  intros o interview t. subst t. rewrite endCall_trace.
  unfold EndCallButton.steps, returned. simpl.
  destruct (o Effects.CallEndCall); simpl; [|now repeat split].
  destruct (o (Effects.UpdateInterviewStatus _ _)); simpl; [|now repeat split].
  destruct (o (Effects.RouterPush _)); simpl; now repeat split.
Qed.

(** X9. When all three calls return, the call is ended, the status of
    the interview the action was given is [completed], no other
    interview's status has changed, and the route is the home route. *)
Theorem endCall_success_state :
  forall (o : Effects.Oracle) (interview : EndCallButton.Interview) (w : Effects.World),
    Forall (fun op => o op = Effects.Returns) (EndCallButton.steps interview) ->
    let w' := Effects.apply_trace
                (fst (Effects.run (EndCallButton.endCall interview) o)) w in
    Effects.callEnded w' = true
    /\ Effects.interviewStatus w' (EndCallButton._id interview) = "completed"
    /\ (forall k, k <> EndCallButton._id interview ->
                  Effects.interviewStatus w' k = Effects.interviewStatus w k)
    /\ Effects.route w' = "/".
Proof.
  intros o interview w Hall w'. subst w'. rewrite endCall_trace.
  unfold EndCallButton.steps in Hall.
  inversion Hall as [|? ? H1 Hall1]; subst.
  inversion Hall1 as [|? ? H2 Hall2]; subst.
  inversion Hall2 as [|? ? H3 _]; subst.
  rewrite H1, H2, H3. simpl. rewrite String.eqb_refl.
  repeat split. intros k Hk. apply String.eqb_neq in Hk. now rewrite Hk.
Qed.

Lemma endCall_success_state_witness :
  Forall (fun op => all_return op = Effects.Returns) (EndCallButton.steps sample_interview)
  /\ Effects.route
       (Effects.apply_trace
          (fst (Effects.run (EndCallButton.endCall sample_interview) all_return))
          sample_world) = "/".
Proof.
  split; [repeat constructor|].
  apply (endCall_success_state all_return sample_interview sample_world).
  repeat constructor.
Defined.

(** X10. When the call was ended but the status mutation throws, the
    call stays ended while no interview status and not the route have
    changed, and the run ends with the error log and the failure toast:
    the end of the call is not taken back. *)
Theorem endCall_partial_failure_state :
  forall (o : Effects.Oracle) (interview : EndCallButton.Interview)
         (w : Effects.World) (e : Effects.Error),
    o Effects.CallEndCall = Effects.Returns ->
    o (Effects.UpdateInterviewStatus (EndCallButton._id interview) "completed")
    = Effects.Throws e ->
    let t := fst (Effects.run (EndCallButton.endCall interview) o) in
    let w' := Effects.apply_trace t w in
    Effects.callEnded w' = true
    /\ (forall k, Effects.interviewStatus w' k = Effects.interviewStatus w k)
    /\ Effects.route w' = Effects.route w
    /\ existsb Effects.is_navigation t = false
    /\ exists before, t = before ++ failure_events e.
Proof.
  intros o interview w e H1 H2 t w'. subst w' t. rewrite endCall_trace, H1, H2.
  simpl. repeat split.
  now exists [Effects.Called Effects.CallEndCall Effects.Returns;
              Effects.Called
                (Effects.UpdateInterviewStatus (EndCallButton._id interview) "completed")
                (Effects.Throws e)].
Qed.

Lemma endCall_partial_failure_state_witness :
  update_rejects Effects.CallEndCall = Effects.Returns
  /\ Effects.callEnded
       (Effects.apply_trace
          (fst (Effects.run (EndCallButton.endCall sample_interview) update_rejects))
          sample_world) = true.
Proof.
  split; [reflexivity|].
  apply (endCall_partial_failure_state update_rejects sample_interview sample_world
           "mutation failed"); reflexivity.
Defined.

(** X11. Whatever fails, the action never re-opens an ended call, and
    the only interview status it ever writes is [completed], on the
    interview it was given: every other status is left as it was. *)
Theorem endCall_only_completes :
  forall (o : Effects.Oracle) (interview : EndCallButton.Interview)
         (w : Effects.World) (k : string),
    let w' := Effects.apply_trace
                (fst (Effects.run (EndCallButton.endCall interview) o)) w in
    (Effects.callEnded w = true -> Effects.callEnded w' = true)
    /\ (Effects.interviewStatus w' k = Effects.interviewStatus w k
        \/ (k = EndCallButton._id interview
            /\ Effects.interviewStatus w' k = "completed"))
    /\ (Effects.route w' = Effects.route w \/ Effects.route w' = "/").
Proof.
  intros o interview w k w'. subst w'. rewrite endCall_trace.
  destruct (o Effects.CallEndCall); simpl; [|now repeat split; try left].
  destruct (o (Effects.UpdateInterviewStatus _ _)); simpl;
    [|now repeat split; try left].
  assert (Hk : (if String.eqb k (EndCallButton._id interview)
                then "completed" else Effects.interviewStatus w k)
               = Effects.interviewStatus w k
               \/ (k = EndCallButton._id interview
                   /\ (if String.eqb k (EndCallButton._id interview)
                       then "completed" else Effects.interviewStatus w k)
                      = "completed")).
  { destruct (String.eqb_spec k (EndCallButton._id interview)); [right | left]; tauto. }
  destruct (o (Effects.RouterPush _)); simpl; repeat split; trivial;
    [now right | now left].
Qed.

(** ** The end-call control and its action together *)

(** X12. The button the control renders acts on the interview found
    under the id of the rendered call and on no other: every status
    mutation a click issues names that interview and the status
    [completed]. *)
Theorem rendered_button_completes_its_interview :
  forall (call : option EndCallButton.Call)
         (localParticipant : option EndCallButton.Participant)
         (query : string -> Js.Lookup EndCallButton.Interview)
         (onClick : Effects.M unit) (o : Effects.Oracle),
    EndCallButton.EndCallButton call localParticipant query
    = EndCallButton.EndMeetingButton onClick ->
    exists c i,
      call = Some c
      /\ query (EndCallButton.call_id c) = Js.Present i
      /\ forall op outcome,
           In (Effects.Called op outcome) (fst (Effects.run onClick o)) ->
           In op [Effects.CallEndCall;
                  Effects.UpdateInterviewStatus (EndCallButton._id i) "completed";
                  Effects.RouterPush "/"].
Proof.
  intros call lp query onClick o. unfold EndCallButton.EndCallButton.
  destruct call as [c|]; simpl; [|destruct (query ""); discriminate].
  destruct (query (EndCallButton.call_id c)) as [| |i] eqn:Hq; try discriminate.
  destruct (EndCallButton.isMeetingOwner lp c); simpl; [|discriminate].
  intros H. injection H as <-. exists c, i.
  split; [reflexivity|]. split; [exact Hq|].
  intros op outcome. rewrite endCall_trace. unfold failure_events.
  destruct (o Effects.CallEndCall); simpl;
    [|intros [H|[H|[H|[]]]]; try discriminate; injection H as <- _; tauto].
  destruct (o (Effects.UpdateInterviewStatus _ _)); simpl;
    [|intros [H|[H|[H|[H|[]]]]]; try discriminate; injection H as <- _; tauto].
  destruct (o (Effects.RouterPush _)); simpl.
  - intros [H|[H|[H|[H|[]]]]]; try discriminate; injection H as <- _; tauto.
  - intros [H|[H|[H|[H|[H|[]]]]]]; try discriminate; injection H as <- _; tauto.
Qed.

Lemma rendered_button_completes_its_interview_witness :
  EndCallButton.EndCallButton (Some sample_call) (Some sample_participant)
    one_interview_store
  = EndCallButton.EndMeetingButton (EndCallButton.endCall sample_interview)
  /\ exists c i,
       Some sample_call = Some c
       /\ one_interview_store (EndCallButton.call_id c) = Js.Present i
       /\ forall op outcome,
            In (Effects.Called op outcome)
               (fst (Effects.run (EndCallButton.endCall sample_interview) all_return)) ->
            In op [Effects.CallEndCall;
                   Effects.UpdateInterviewStatus (EndCallButton._id i) "completed";
                   Effects.RouterPush "/"].
Proof.
  split; [reflexivity|].
  apply (rendered_button_completes_its_interview (Some sample_call)
           (Some sample_participant) one_interview_store
           (EndCallButton.endCall sample_interview) all_return).
  reflexivity.
Defined.

(** ** The consumers of the role hook *)

(** X13. Once the role lookup has resolved to something other than a
    candidate or an interviewer record (no record at all, or another
    role), the dashboard button shows its link while the schedule page
    sends the user home: the two consumers disagree on such a user. *)
Theorem link_shown_but_schedule_refused :
  forall (getUserByClerkId : string -> Js.Lookup UserRole.UserDoc)
         (user : Js.Lookup UserRole.ClerkUser),
    let userData := getUserByClerkId (UserRole.clerkId user) in
    let r := UserRole.useUserRole getUserByClerkId user in
    userData <> Js.Pending ->
    (forall doc, userData = Js.Present doc ->
                 UserRole.role doc <> "candidate" /\ UserRole.role doc <> "interviewer") ->
    DashboardBtn.DashboardBtn r = DashboardBtn.DashboardLink "/dashboard"
    /\ SchedulePage.SchedulePage r = SchedulePage.RouterPushHome.
Proof.
  intros getUserByClerkId user userData r Hres Hrole. subst r.
  unfold DashboardBtn.DashboardBtn, SchedulePage.SchedulePage, UserRole.useUserRole.
  simpl. fold userData.
  destruct userData as [| |doc] eqn:Hd; [contradiction | now split|].
  destruct (Hrole doc eq_refl) as [Hc Hi]. simpl.
  apply String.eqb_neq in Hc, Hi. now rewrite Hc, Hi.
Qed.

Lemma link_shown_but_schedule_refused_witness :
  DashboardBtn.DashboardBtn (UserRole.useUserRole empty_user_store signed_in_user)
  = DashboardBtn.DashboardLink "/dashboard"
  /\ SchedulePage.SchedulePage (UserRole.useUserRole empty_user_store signed_in_user)
     = SchedulePage.RouterPushHome.
Proof.
  apply (link_shown_but_schedule_refused empty_user_store signed_in_user).
  - discriminate.
  - intros doc H. discriminate H.
Defined.

(** X14. The schedule page shows its content exactly when the resolved
    record says [interviewer], shows the loader exactly while the lookup
    is unresolved, and sends every other user home. Whoever sees the
    schedule content also sees the dashboard link. *)
Theorem schedule_page_admits_interviewers :
  forall (getUserByClerkId : string -> Js.Lookup UserRole.UserDoc)
         (user : Js.Lookup UserRole.ClerkUser),
    let userData := getUserByClerkId (UserRole.clerkId user) in
    let r := UserRole.useUserRole getUserByClerkId user in
    (SchedulePage.SchedulePage r = SchedulePage.InterviewScheduleUI
     <-> UserRole.records_interviewer userData = true)
    /\ (SchedulePage.SchedulePage r = SchedulePage.LoaderUI <-> userData = Js.Pending)
    /\ (SchedulePage.SchedulePage r = SchedulePage.InterviewScheduleUI ->
        DashboardBtn.DashboardBtn r = DashboardBtn.DashboardLink "/dashboard").
Proof.
  intros getUserByClerkId user userData r. subst r.
  unfold DashboardBtn.DashboardBtn, SchedulePage.SchedulePage, UserRole.useUserRole.
  simpl. fold userData.
  destruct userData as [| |doc]; simpl.
  - repeat split; discriminate.
  - repeat split; discriminate.
  - destruct (String.eqb_spec (UserRole.role doc) "interviewer") as [He|He]; simpl.
    + rewrite He. simpl. repeat split; discriminate.
    + repeat split; try discriminate.
Qed.

(** ** The player after the first render *)

(** X15. The server and the client produce the same markup for the
    player at the first render and at no later one. *)
Theorem markup_agrees_only_at_first_render :
  forall (props : VideoPlayer.VideoPlayerProps) (n : nat),
    VideoPlayer.markup Hydration.Server props n = VideoPlayer.markup Hydration.Client props n
    <-> n = 0.
Proof.
  intros props n. unfold VideoPlayer.markup.
  rewrite server_flag_stays_false. split.
  - destruct n as [|n]; [reflexivity|].
    rewrite client_flag_after_mount. discriminate.
  - now intros ->.
Qed.

(** X16. The placeholder of the first render is built from [className]
    alone: [src] and [ariaLabel] do not reach it, and a player given no
    [className] gets a class attribute that starts with the text
    [undefined]. The video element, once mounted, receives all three
    props as they were passed. *)
Theorem placeholder_uses_className_only :
  forall (env : Hydration.Environment) (p q : VideoPlayer.VideoPlayerProps) (n : nat),
    (VideoPlayer.className p = VideoPlayer.className q ->
     VideoPlayer.markup env p 0 = VideoPlayer.markup env q 0)
    /\ (VideoPlayer.className p = None ->
        VideoPlayer.markup env p 0
        = VideoPlayer.PlaceholderDiv
            "undefined bg-gray-200 dark:bg-gray-800 animate-pulse flex items-center justify-center"
            "Loading video..." "Loading...")
    /\ (VideoPlayer.markup Hydration.Client p (S n)
        = VideoPlayer.markup Hydration.Client q (S n)
        <-> p = q).
Proof.
  intros env p q n. unfold VideoPlayer.markup. rewrite client_flag_after_mount.
  unfold VideoPlayer.VideoPlayer. simpl.
  split; [now intros ->|]. split; [now intros ->|].
  destruct p, q; simpl. split.
  - intros H. now injection H as -> -> ->.
  - intros H. now injection H as -> -> ->.
Qed.

(** ** The gate: the complete list of exemptions *)



(** What the gate answers a signed-out request it is invoked on, when
    the path does not begin with two slashes. *)
Lemma signed_out_answer (pathname : string) :
  Middleware.selects pathname = true ->
  Middleware.starts_with "//" pathname = false ->
  Middleware.gate pathname Middleware.SignedOut
  = Middleware.Invoked
      (Middleware.Responds
         (if Middleware.isIgnoredRoute pathname || Middleware.isPublicRoute pathname
          then Middleware.Forward else Middleware.SignInChallenge)).
Proof.
  intros Hsel Hslash. unfold Middleware.gate.
  rewrite Hsel, middleware_cases, Hslash.
  now destruct (Middleware.isIgnoredRoute pathname), (Middleware.isPublicRoute pathname).
Qed.



(** ** The gate on the protected pages *)

Lemma protected_plain_is_selected (pathname : string) :
  Middleware.isProtectedRoute pathname = true ->
  all_chars plain_char pathname = true ->
  Middleware.selects pathname = true.
Proof.
  rewrite isProtectedRoute_unfold, <- all_chars_lower.
  remember (Middleware.lower pathname) as p eqn:Hp. intros H Hplain.
  repeat rewrite orb_false_r in H.
  repeat (apply orb_true_iff in H; destruct H as [H|H]);
    apply starts_with_two in H; destruct H as [rest Hrest]; subst p;
    rewrite Hrest in Hplain; cbn [all_chars] in Hplain;
    apply andb_true_iff in Hplain; destruct Hplain as [_ Hplain];
    apply (selects_of_lower pathname _ Hrest); trivial.
Qed.

(** X23. A request without a valid session on a path under one of the
    four protected prefixes that contains no dot (and no line
    terminator) never goes on to the application: the filter selects
    every such path and the gate answers with the sign-in challenge or a
    401. *)
Theorem protected_pages_are_gated :
  forall (pathname : string) (state : Middleware.RequestState),
    Middleware.isProtectedRoute pathname = true ->
    all_chars plain_char pathname = true ->
    Middleware.signed_in state = false ->
    Middleware.selects pathname = true
    /\ Middleware.reaches_application (Middleware.gate pathname state) = false
    /\ (state = Middleware.SignedOut ->
        Middleware.gate pathname state
        = Middleware.Invoked (Middleware.Responds Middleware.SignInChallenge)).
Proof.
  intros pathname state Hprot Hplain Hout.
  pose proof (protected_plain_is_selected pathname Hprot Hplain) as Hsel.
  destruct (protected_not_public_nor_ignored pathname Hprot) as (Hpub & Hign & Hslash).
  split; [exact Hsel|].
  unfold Middleware.gate. rewrite Hsel, middleware_cases, Hslash, Hign, Hpub.
  destruct state; try discriminate Hout; split; trivial; discriminate.
Qed.

Lemma protected_pages_are_gated_witness :
  Middleware.isProtectedRoute "/recordings" = true
  /\ all_chars plain_char "/recordings" = true
  /\ Middleware.reaches_application
       (Middleware.gate "/recordings" Middleware.Interstitial) = false.
Proof.
  split; [reflexivity|]. split; [reflexivity|].
  apply (protected_pages_are_gated "/recordings" Middleware.Interstitial);
    reflexivity.
Defined.

(** ** The gate and the middleware of the route notes *)

Lemma protected_signed_out_gate (pathname : string) :
  Middleware.selects pathname = true ->
  Middleware.isProtectedRoute pathname = true ->
  Middleware.gate pathname Middleware.SignedOut
  = Middleware.Invoked (Middleware.Responds Middleware.SignInChallenge).
Proof.
  intros Hsel H.
  destruct (protected_not_public_nor_ignored pathname H) as (Hpub & Hign & Hslash).
  now rewrite (signed_out_answer pathname Hsel Hslash), Hign, Hpub.
Qed.

(** X18. On the requests the filter selects, for a path that does not
    begin with two slashes and a credential that has settled, the gate
    is at least as strict as the handler of the route notes: both
    forward every signed-in request, and what the handler stops the gate
    stops. For signed-out requests they differ exactly on the paths
    outside the listed patterns that are not exempt: the handler of the
    notes forwards them, the gate challenges them. *)
Theorem gate_refines_documented_middleware :
  forall pathname : string,
    Middleware.selects pathname = true ->
    Middleware.starts_with "//" pathname = false ->
    (forall userId,
        Middleware.gate pathname (Middleware.SignedIn userId)
        = Middleware.Invoked
            (Middleware.Responds
               (DocumentedMiddleware.clerkMiddleware pathname (Some userId))))
    /\ (DocumentedMiddleware.clerkMiddleware pathname None = Middleware.SignInChallenge ->
        Middleware.gate pathname Middleware.SignedOut
        = Middleware.Invoked (Middleware.Responds Middleware.SignInChallenge))
    /\ (Middleware.gate pathname Middleware.SignedOut
        <> Middleware.Invoked
             (Middleware.Responds (DocumentedMiddleware.clerkMiddleware pathname None))
        <-> Middleware.isProtectedRoute pathname = false
            /\ ~ In (Middleware.lower pathname) exempt_paths).
Proof.
  intros pathname Hsel Hslash.
  unfold DocumentedMiddleware.clerkMiddleware.
  split.
  { intros userId. unfold Middleware.gate.
    rewrite Hsel, middleware_cases, Hslash.
    now destruct (Middleware.isIgnoredRoute pathname),
      (Middleware.isProtectedRoute pathname). }
  pose proof (forwarded_iff_exempt pathname) as Hex.
  destruct (Middleware.isProtectedRoute pathname) eqn:Hprot.
  - rewrite (protected_signed_out_gate pathname Hsel Hprot).
    split; [trivial|]. split; [tauto | intros [H _]; discriminate].
  - split; [discriminate|]. split.
    + intros Hne. split; [reflexivity|]. intros Hin. now apply Hne, Hex.
    + intros [_ Hno] Hfwd. now apply Hno, Hex.
Qed.

Lemma gate_refines_documented_middleware_witness :
  Middleware.selects "/profile" = true
  /\ Middleware.gate "/profile" Middleware.SignedOut
     <> Middleware.Invoked
          (Middleware.Responds (DocumentedMiddleware.clerkMiddleware "/profile" None)).
Proof.
  split; [reflexivity|].
  apply (proj2 (proj2 (gate_refines_documented_middleware "/profile" eq_refl eq_refl))).
  split; [reflexivity|].
  unfold exempt_paths, with_delimiters. simpl.
  intros H. repeat (destruct H as [H|H]; [discriminate H|]). exact H.
Defined.

(** ** Status updates from the dashboard *)

(** X19. A status update never rejects and shows exactly one toast. When
    the mutation returns, the interview has the requested status, every
    other interview keeps its own, and the toast names the status; when
    it throws, no status has changed, the failure toast is shown and the
    error is logged. The route is never touched. *)
Theorem handleStatusUpdate_outcomes :
  forall (o : Effects.Oracle) (id status : string) (w : Effects.World),
    let t := fst (Effects.run (StatusUpdate.handleStatusUpdate id status) o) in
    let w' := Effects.apply_trace t w in
    snd (Effects.run (StatusUpdate.handleStatusUpdate id status) o) = Effects.Ok tt
    /\ length (filter is_toast t) = 1
    /\ Effects.route w' = Effects.route w
    /\ Effects.callEnded w' = Effects.callEnded w
    /\ match o (Effects.UpdateInterviewStatus id status) with
       | Effects.Returns =>
           Effects.interviewStatus w' id = status
           /\ (forall k, k <> id ->
                         Effects.interviewStatus w' k = Effects.interviewStatus w k)
           /\ t = [Effects.Called (Effects.UpdateInterviewStatus id status) Effects.Returns;
                   Effects.ToastSuccess ("Interview marked as " ++ status)]
       | Effects.Throws e =>
           (forall k, Effects.interviewStatus w' k = Effects.interviewStatus w k)
           /\ t = [Effects.Called (Effects.UpdateInterviewStatus id status)
                     (Effects.Throws e);
                   Effects.ToastError StatusUpdate.failure_message;
                   Effects.ConsoleError e]
       end.
Proof.
  intros o id status w t w'. subst w' t.
  unfold Effects.run, StatusUpdate.handleStatusUpdate, Effects.try_catch, Effects.bind,
    Effects.perform, Effects.log.
  simpl.
  destruct (o (Effects.UpdateInterviewStatus id status)) as [|e]; simpl.
  - rewrite String.eqb_refl. repeat split.
    intros k Hk. apply String.eqb_neq in Hk. now rewrite Hk.
  - repeat split.
Qed.

(** ** The end-call control: who sees the button *)

(** X20. The control renders its button exactly when the call and the
    interview record under the call's id are resolved and either the
    local participant is the recorded creator, or neither a local
    participant nor a creator is known. A known participant who is not
    the creator, and anyone while the creator is known but the
    participant is not, gets nothing. *)
Theorem end_button_visibility :
  forall (call : option EndCallButton.Call)
         (localParticipant : option EndCallButton.Participant)
         (query : string -> Js.Lookup EndCallButton.Interview),
    EndCallButton.renders_button
      (EndCallButton.EndCallButton call localParticipant query) = true
    <-> exists c i,
          call = Some c
          /\ query (EndCallButton.call_id c) = Js.Present i
          /\ (EndCallButton.is_creator localParticipant c
              \/ (localParticipant = None
                  /\ EndCallButton.createdBy (EndCallButton.state c) = None)).
Proof.
  intros call lp query. rewrite renders_button_iff. split.
  - intros (c & i & Hc & Hq & Hown). exists c, i. repeat split; trivial.
    now apply isMeetingOwner_iff.
  - intros (c & i & Hc & Hq & Hown). exists c, i. repeat split; trivial.
    now apply isMeetingOwner_iff.
Qed.

(** ** The meeting dialog: dismissing and typing *)

Lemma dismissal_dispatch (props : MeetingModalUI.MeetingModalProps)
    (meetingUrl : string) (ev : MeetingModalUI.UserEvent) :
  is_dismissal ev = true ->
  MeetingModalUI.dispatch props meetingUrl ev
  = if MeetingModalUI.isOpen props then [MeetingModal.OnClose] else [].
Proof.
  unfold MeetingModalUI.dispatch, MeetingModalUI.can_fire. simpl.
  destruct ev; try discriminate; intros _;
    now destruct (MeetingModalUI.isOpen props).
Qed.

(** X21. Cancelling or dismissing the dialog, however often, only calls
    [onClose], once per event on an open dialog: the typed link is kept,
    nothing is validated and no helper is called. *)
Theorem dismissal_keeps_the_input :
  forall (props : MeetingModalUI.MeetingModalProps) (meetingUrl : string)
         (events : list MeetingModalUI.UserEvent),
    forallb is_dismissal events = true ->
    MeetingModalUI.interact props meetingUrl events
    = (meetingUrl,
       repeat MeetingModal.OnClose
         (if MeetingModalUI.isOpen props then length events else 0)).
Proof.
  intros props meetingUrl events.
  induction events as [|ev events IH]; simpl.
  - now destruct (MeetingModalUI.isOpen props).
  - intros H. apply andb_true_iff in H. destruct H as [Hev Hrest].
    rewrite (dismissal_dispatch props meetingUrl ev Hev).
    destruct (MeetingModalUI.isOpen props) eqn:Hopen; simpl;
      unfold MeetingModal.meetingUrl_after; simpl;
      now rewrite (IH Hrest).
Qed.

Lemma dismissal_keeps_the_input_witness :
  MeetingModalUI.interact join_props "https://x/y/abc123"
    [MeetingModalUI.ClickCancel; MeetingModalUI.OpenChange]
  = ("https://x/y/abc123", [MeetingModal.OnClose; MeetingModal.OnClose]).
Proof.
  apply (dismissal_keeps_the_input join_props "https://x/y/abc123"
           [MeetingModalUI.ClickCancel; MeetingModalUI.OpenChange]).
  reflexivity.
Defined.

(** X22. On an open dialog in join mode, typing a value and clicking
    the start button runs the handler on exactly that value, whatever
    the input held before; if the typed value is blank the click does
    nothing and the value stays in the input. *)
Theorem start_uses_the_typed_value :
  forall (props : MeetingModalUI.MeetingModalProps) (before typed : string),
    MeetingModalUI.isOpen props = true ->
    MeetingModalUI.isJoinMeeting props = true ->
    MeetingModalUI.interact props before
      [MeetingModalUI.InputChange typed; MeetingModalUI.ClickStart]
    = if JsTrim.blank typed
      then (typed, [MeetingModal.SetMeetingUrl typed])
      else ("", MeetingModal.SetMeetingUrl typed :: MeetingModal.handleStart true typed).
Proof.
  intros props before typed Hopen Hjoin.
  cbn [MeetingModalUI.interact].
  assert (Htype : MeetingModalUI.dispatch props before (MeetingModalUI.InputChange typed)
                  = [MeetingModal.SetMeetingUrl typed]).
  { unfold MeetingModalUI.dispatch, MeetingModalUI.can_fire. simpl.
    now rewrite Hopen, Hjoin. }
  rewrite Htype.
  change (MeetingModal.meetingUrl_after [MeetingModal.SetMeetingUrl typed] before)
    with typed.
  assert (Hstart : MeetingModalUI.dispatch props typed MeetingModalUI.ClickStart
                   = if JsTrim.blank typed then []
                     else MeetingModal.handleStart true typed).
  { unfold MeetingModalUI.dispatch, MeetingModalUI.can_fire. simpl.
    rewrite Hopen, Hjoin, trims_to_empty_blank. simpl.
    now destruct (JsTrim.blank typed). }
  rewrite Hstart.
  destruct (JsTrim.blank typed); simpl; [reflexivity|].
  rewrite meetingUrl_after_handleStart. now rewrite app_nil_r.
Qed.

Lemma start_uses_the_typed_value_witness :
  MeetingModalUI.interact join_props "stale"
    [MeetingModalUI.InputChange "https://x/y/abc123"; MeetingModalUI.ClickStart]
  = ("", [MeetingModal.SetMeetingUrl "https://x/y/abc123";
          MeetingModal.JoinMeeting "abc123"; MeetingModal.SetMeetingUrl "";
          MeetingModal.OnClose])
  /\ MeetingModalUI.interact join_props "stale"
       [MeetingModalUI.InputChange wide_blank; MeetingModalUI.ClickStart]
     = (wide_blank, [MeetingModal.SetMeetingUrl wide_blank]).
Proof.
  split.
  - rewrite (start_uses_the_typed_value join_props "stale" "https://x/y/abc123"
               eq_refl eq_refl).
    reflexivity.
  - rewrite (start_uses_the_typed_value join_props "stale" wide_blank eq_refl eq_refl).
    reflexivity.
Defined.
